(** * DefaultVehicleHal (Vehicle HAL 2.0, default implementation)

    A shallow embedding of
    [automotive/vehicle/2.0/default/impl/vhal_v2_0/DefaultVehicleHal.cpp]:
    the validation functions ([checkPropValue], [checkVendorMixedPropValue],
    [checkValueRange]) and the broker operations ([get], [set], [onCreate],
    [subscribe], the timer and push callbacks), followed by the properties
    established about them.

    Conventions.
    - [int32_t] and [int64_t] are [Z]; [size_t] is [Z] reduced modulo [2^64]
      where the code casts or adds; [float] is IEEE 754 ([spec_float]), so
      that comparisons with NaN behave as in C++.
    - [hidl_vec<T>] is [list T]; [operator[]] is unchecked in C++, so an index
      past the end is [Undefined OutOfBounds].
    - A pointer that may be null or uninitialised is an [option].
    - A parameter that the source calls [value] is [value0] here, [value]
      being the payload field of [VehiclePropValue].
    - The collaborators (property store, hardware client, recurrent timer,
      event sink, clocks) are interfaces; every call the broker makes on them
      is appended to a trace. *)

From Stdlib Require Import ZArith List Bool Lia.
From Stdlib Require Import Floats.SpecFloat.
From stdpp Require Import base list gmap.

Local Open Scope Z_scope.

(* ===================================================================== *)
(** * Outcomes of C++ code *)
(* ===================================================================== *)

Inductive Fault : Type :=
  | UninitializedPointer   (* dereference of a pointer that was never assigned *)
  | NullDereference        (* dereference of nullptr *)
  | OutOfBounds            (* hidl_vec operator[] past size() *)
  | AssertionFailure.      (* assert(...) on a false condition *)

Inductive Result (A : Type) : Type :=
  | Done (a : A)
  | Undefined (f : Fault).

Arguments Done {A} a.
Arguments Undefined {A} f.

Definition rbind {A B : Type} (m : Result A) (k : A -> Result B) : Result B :=
  match m with
  | Done a => k a
  | Undefined f => Undefined f
  end.

Declare Scope result_scope.
Delimit Scope result_scope with result.
Notation "x <- m ;; k" := (rbind m (fun x => k))
  (at level 100, m at next level, right associativity) : result_scope.

Definition returns {A : Type} (m : Result A) : Prop := exists a, m = Done a.

(** [v[i]] on a [hidl_vec]. *)
Definition at_index {A : Type} (v : list A) (i : nat) : Result A :=
  match v !! i with
  | Some x => Done x
  | None => Undefined OutOfBounds
  end.

(** [*p] / [p->field]. *)
Definition deref {A : Type} (why : Fault) (p : option A) : Result A :=
  match p with
  | Some x => Done x
  | None => Undefined why
  end.

Definition assert (b : bool) : Result unit :=
  if b then Done tt else Undefined AssertionFailure.

(* ===================================================================== *)
(** * Data model (types.hal) *)
(* ===================================================================== *)

Definition float := spec_float.

Definition flt (x y : float) : bool := SFltb x y.
Definition fgt (x y : float) : bool := SFltb y x.
Definition fle (x y : float) : bool := SFleb x y.
Definition feq (x y : float) : bool := SFeqb x y.
Definition fzero : float := S754_zero false.
Definition is_nan (x : float) : bool :=
  match x with S754_nan => true | _ => false end.

Inductive StatusCode : Type :=
  | OK | TRY_AGAIN | INVALID_ARG | NOT_AVAILABLE | ACCESS_DENIED | INTERNAL_ERROR.

Inductive VehiclePropertyStatus : Type :=
  | AVAILABLE | UNAVAILABLE | ERROR.

Inductive VehiclePropertyChangeMode : Type :=
  | STATIC | ON_CHANGE | CONTINUOUS.

(** The type tag is a [static_cast] of masked bits of the property id, so a
    value outside the enumerators is possible: [UNKNOWN_TYPE]. *)
Inductive VehiclePropertyType : Type :=
  | STRING | BOOLEAN | INT32 | INT32_VEC | INT64 | INT64_VEC
  | FLOAT | FLOAT_VEC | BYTES | MIXED
  | UNKNOWN_TYPE (raw : Z).

Inductive VehiclePropertyGroup : Type :=
  | SYSTEM | VENDOR
  | UNKNOWN_GROUP (raw : Z).

#[global] Instance StatusCode_eq_dec : EqDecision StatusCode.
Proof. solve_decision. Defined.
#[global] Instance VehiclePropertyStatus_eq_dec : EqDecision VehiclePropertyStatus.
Proof. solve_decision. Defined.
#[global] Instance VehiclePropertyChangeMode_eq_dec : EqDecision VehiclePropertyChangeMode.
Proof. solve_decision. Defined.
#[global] Instance VehiclePropertyGroup_eq_dec : EqDecision VehiclePropertyGroup.
Proof. solve_decision. Defined.

Record RawValue : Type := {
  int32Values : list Z;
  floatValues : list float;
  int64Values : list Z;
  bytes : list Z;
  stringValue : list Z;
}.

Record VehiclePropValue : Type := {
  timestamp : Z;
  areaId : Z;
  prop : Z;
  status : VehiclePropertyStatus;
  value : RawValue;
}.

(** Field names of the two config structs that collide with
    [VehiclePropValue] carry the prefix [cfg]. *)
Record VehicleAreaConfig : Type := {
  cfgAreaId : Z;
  minInt32Value : Z;
  maxInt32Value : Z;
  minInt64Value : Z;
  maxInt64Value : Z;
  minFloatValue : float;
  maxFloatValue : float;
}.

Record VehiclePropConfig : Type := {
  cfgProp : Z;
  changeMode : VehiclePropertyChangeMode;
  areaConfigs : list VehicleAreaConfig;
  configArray : list Z;
  minSampleRate : float;
  maxSampleRate : float;
}.

(** [v.size()] as a [size_t]. *)
Definition size {A : Type} (v : list A) : Z := Z.of_nat (length v).

(** [static_cast<size_t>(x)] for a signed [x], and [size_t] addition. *)
Definition SIZE_MAX1 : Z := 2 ^ 64.
Definition to_size_t (x : Z) : Z := x mod SIZE_MAX1.
Definition size_add (a b : Z) : Z := (a + b) mod SIZE_MAX1.

(** Value-initialised structs ([VehiclePropValue prop = {...}]). *)
Definition emptyRawValue : RawValue :=
  {| int32Values := []; floatValues := []; int64Values := [];
     bytes := []; stringValue := [] |}.

Definition set_timestamp (t : Z) (v : VehiclePropValue) : VehiclePropValue :=
  {| timestamp := t; areaId := areaId v; prop := prop v;
     status := status v; value := value v |}.

Definition set_stringValue (s : list Z) (v : VehiclePropValue) : VehiclePropValue :=
  {| timestamp := timestamp v; areaId := areaId v; prop := prop v;
     status := status v;
     value := {| int32Values := int32Values (value v);
                 floatValues := floatValues (value v);
                 int64Values := int64Values (value v);
                 bytes := bytes (value v);
                 stringValue := s |} |}.

(** Typing invariants of the HIDL data: [hidl_vec] stores its size in a
    [uint32_t], [configArray] holds [int32_t]. *)
Definition UINT32_MAX : Z := 2 ^ 32 - 1.
Definition is_int32 (x : Z) : Prop := - 2 ^ 31 <= x < 2 ^ 31.

Record wf_value (v : VehiclePropValue) : Prop := {
  wf_int32Values : size (int32Values (value v)) <= UINT32_MAX;
  wf_int64Values : size (int64Values (value v)) <= UINT32_MAX;
  wf_floatValues : size (floatValues (value v)) <= UINT32_MAX;
  wf_bytes : size (bytes (value v)) <= UINT32_MAX;
}.

Definition wf_configArray (c : VehiclePropConfig) : Prop :=
  Forall is_int32 (configArray c).

(* ===================================================================== *)
(** * Helpers of VehicleUtils.h and constants of the VehicleProperty enum *)
(* ===================================================================== *)

(** Modelled from the spec: [VehicleUtils.h] and the [VehicleProperty] enum
    are declared outside [DefaultVehicleHal.cpp].  The spec describes the
    group and the type tag as "extractable by pure functions of the id" and
    a property as either global or area-scoped, so they are taken as pure
    functions of the property id; the two property ids the broker names and
    the rate-to-interval conversion are taken as given. *)
Class VehicleUtils : Type := {
  getPropType : Z -> VehiclePropertyType;
  getPropGroup : Z -> VehiclePropertyGroup;
  isGlobalProp : Z -> bool;
  VHAL_HEARTBEAT : Z;
  PERF_VEHICLE_SPEED : Z;
  hertzToNanoseconds : float -> Z;
}.

(* ===================================================================== *)
(** * Validation *)
(* ===================================================================== *)

Section Validation.
Context {utils : VehicleUtils}.

Local Open Scope result_scope.

(** [DefaultVehicleHal::checkVendorMixedPropValue] *)
Definition checkVendorMixedPropValue
    (value0 : VehiclePropValue) (config : VehiclePropConfig) : Result StatusCode :=
  let configArray := configArray config in
  let int32Count := 0 in
  c1 <- at_index configArray 1 ;;
  let int32Count := if c1 =? 1 then size_add int32Count 1 else int32Count in
  c2 <- at_index configArray 2 ;;
  let int32Count := if c2 =? 1 then size_add int32Count 1 else int32Count in
  c3 <- at_index configArray 3 ;;
  let int32Count := size_add int32Count (to_size_t c3) in
  if negb (size (int32Values (value value0)) =? int32Count) then Done INVALID_ARG else
  let int64Count := 0 in
  c4 <- at_index configArray 4 ;;
  let int64Count := if c4 =? 1 then size_add int64Count 1 else int64Count in
  c5 <- at_index configArray 5 ;;
  let int64Count := size_add int64Count (to_size_t c5) in
  if negb (size (int64Values (value value0)) =? int64Count) then Done INVALID_ARG else
  let floatCount := 0 in
  c6 <- at_index configArray 6 ;;
  let floatCount := if c6 =? 1 then size_add floatCount 1 else floatCount in
  c7 <- at_index configArray 7 ;;
  let floatCount := size_add floatCount (to_size_t c7) in
  if negb (size (floatValues (value value0)) =? floatCount) then Done INVALID_ARG else
  c8 <- at_index configArray 8 ;;
  if negb (c8 =? 0) && negb (size (bytes (value value0)) =? to_size_t c8)
  then Done INVALID_ARG
  else Done OK.

(** [DefaultVehicleHal::checkPropValue] *)
Definition checkPropValue
    (value0 : VehiclePropValue) (config : VehiclePropConfig) : Result StatusCode :=
  let property := prop value0 in
  let type := getPropType property in
  match type with
  | BOOLEAN | INT32 =>
      if negb (size (int32Values (value value0)) =? 1) then Done INVALID_ARG else Done OK
  | INT32_VEC =>
      if size (int32Values (value value0)) <? 1 then Done INVALID_ARG else Done OK
  | INT64 =>
      if negb (size (int64Values (value value0)) =? 1) then Done INVALID_ARG else Done OK
  | INT64_VEC =>
      if size (int64Values (value value0)) <? 1 then Done INVALID_ARG else Done OK
  | FLOAT =>
      if negb (size (floatValues (value value0)) =? 1) then Done INVALID_ARG else Done OK
  | FLOAT_VEC =>
      if size (floatValues (value value0)) <? 1 then Done INVALID_ARG else Done OK
  | BYTES => Done OK
  | STRING => Done OK
  | MIXED =>
      if decide (getPropGroup property = VENDOR)
      then checkVendorMixedPropValue value0 config
      else Done OK
  | UNKNOWN_TYPE _ => Done INVALID_ARG
  end.

(** The [switch (type)] of [checkValueRange]; [areaConfig] is the local
    pointer, [None] when no assignment to it was executed. *)
Definition checkAreaRange (type : VehiclePropertyType)
    (value0 : VehiclePropValue) (areaConfig : option VehicleAreaConfig)
    : Result StatusCode :=
  match type with
  | INT32 =>
      ac <- deref UninitializedPointer areaConfig ;;
      if (minInt32Value ac =? 0) && (maxInt32Value ac =? 0) then Done OK else
      _ <- assert (size (int32Values (value value0)) >? 0) ;;
      x <- at_index (int32Values (value value0)) 0 ;;
      if (x <? minInt32Value ac) || (x >? maxInt32Value ac)
      then Done INVALID_ARG else Done OK
  | INT64 =>
      ac <- deref UninitializedPointer areaConfig ;;
      if (minInt64Value ac =? 0) && (maxInt64Value ac =? 0) then Done OK else
      _ <- assert (size (int64Values (value value0)) >? 0) ;;
      x <- at_index (int64Values (value value0)) 0 ;;
      if (x <? minInt64Value ac) || (x >? maxInt64Value ac)
      then Done INVALID_ARG else Done OK
  | FLOAT =>
      ac <- deref UninitializedPointer areaConfig ;;
      if feq (minFloatValue ac) fzero && feq (maxFloatValue ac) fzero then Done OK else
      _ <- assert (size (floatValues (value value0)) >? 0) ;;
      x <- at_index (floatValues (value value0)) 0 ;;
      if flt x (minFloatValue ac) || fgt x (maxFloatValue ac)
      then Done INVALID_ARG else Done OK
  | _ => Done OK
  end.

(** The [for] loop over [config->areaConfigs]: the first area config
    sharing a bit with the value's area id. *)
Definition findAreaConfig (value0 : VehiclePropValue) (config : VehiclePropConfig)
    : option VehicleAreaConfig :=
  List.find (fun c => negb (Z.land (cfgAreaId c) (areaId value0) =? 0))
            (areaConfigs config).

(** [DefaultVehicleHal::checkValueRange] *)
Definition checkValueRange
    (value0 : VehiclePropValue) (config : VehiclePropConfig) : Result StatusCode :=
  let property := prop value0 in
  let type := getPropType property in
  if isGlobalProp property then
    match areaConfigs config with
    | [] => Done OK
    | c0 :: _ => checkAreaRange type value0 (Some c0)
    end
  else
    checkAreaRange type value0 (findAreaConfig value0 config).

End Validation.

(* ===================================================================== *)
(** * Collaborators *)
(* ===================================================================== *)

(** Modelled from the spec: [VehiclePropertyStore] is an external
    collaborator.  Its interface is the one the spec lists as consumed from
    the Property Store: [readValueOrNull(propertyOrValueKey)] returning an
    optional value, [writeValue(value, updateStatus)] returning whether the
    write is an observable change, [getConfigOrNull], [getAllConfigs] and
    [registerProperty].  The two overloads of [readValueOrNull] (by request
    value, and by property id with the default area) are separate methods.
    The reading methods are const: they return no new store. *)
Class VehiclePropertyStore (S : Type) : Type := {
  readValueOrNull : S -> VehiclePropValue -> option VehiclePropValue;
  readValueOrNullByProp : S -> Z -> option VehiclePropValue;
  writeValue : S -> VehiclePropValue -> bool -> S * bool;
  getConfigOrNull : S -> Z -> option VehiclePropConfig;
  getAllConfigs : S -> list VehiclePropConfig;
  registerProperty : S -> VehiclePropConfig -> S;
}.

(** Modelled from the spec: [VehicleHalClient] is an external collaborator
    with [getAllPropertyConfig], [setProperty(value, updateStatus)] returning
    a status code, and [triggerSendAllValues].  As in the spec, forwarding is
    asynchronous from the store's point of view: what the client pushes back
    arrives through [onPropertyValue], a broker entry point of its own. *)
Class VehicleHalClient (C : Type) : Type := {
  getAllPropertyConfig : C -> list VehiclePropConfig;
  setProperty : C -> VehiclePropValue -> bool -> C * StatusCode;
  triggerSendAllValues : C -> C;
}.

(** Modelled from the spec: the clocks [elapsedRealtimeNano()] and
    [uptimeMillis()] belong to the platform.  The [n]-th reading taken by the
    broker is given by the environment. *)
Class SystemClock : Type := {
  elapsedRealtimeNano_at : nat -> Z;
  uptimeMillis_at : nat -> Z;
}.

(** Modelled from the spec: the Value Pool is an external collaborator with
    the contract obtain-by-copy and obtain-typed. *)
Definition obtain (src : VehiclePropValue) : option VehiclePropValue := Some src.

Definition obtainInt64 (x : Z) : VehiclePropValue :=
  {| timestamp := 0; areaId := 0; prop := 0; status := AVAILABLE;
     value := {| int32Values := []; floatValues := []; int64Values := [x];
                 bytes := []; stringValue := [] |} |}.

(** Every call made on a collaborator.  The recurrent timer and the event
    sink ([doHalEvent]) are observed through the trace only. *)
Inductive Call : Type :=
  | StoreGetConfigOrNull (property : Z)
  | StoreReadValueOrNull (request : VehiclePropValue)
  | StoreReadValueOrNullByProp (property : Z)
  | StoreWriteValue (v : VehiclePropValue) (updateStatus : bool)
  | StoreRegisterProperty (cfg : VehiclePropConfig)
  | StoreGetAllConfigs
  | ClientGetAllPropertyConfig
  | ClientSetProperty (v : VehiclePropValue) (updateStatus : bool)
  | ClientTriggerSendAllValues
  | TimerRegisterRecurrentEvent (interval : Z) (cookie : Z)
  | TimerUnregisterRecurrentEvent (cookie : Z)
  | HalEvent (v : VehiclePropValue).

Definition is_store_write (c : Call) : bool :=
  match c with
  | StoreWriteValue _ _ | StoreRegisterProperty _ => true
  | _ => false
  end.

Definition is_store_read (c : Call) : bool :=
  match c with
  | StoreGetConfigOrNull _ | StoreReadValueOrNull _
  | StoreReadValueOrNullByProp _ | StoreGetAllConfigs => true
  | _ => false
  end.

Definition is_setProperty (c : Call) : bool :=
  match c with ClientSetProperty _ _ => true | _ => false end.

Definition is_timer_register (c : Call) : bool :=
  match c with TimerRegisterRecurrentEvent _ _ => true | _ => false end.

(** The values handed to [writeValue], the events emitted. *)
Definition writes_of (t : list Call) : list (VehiclePropValue * bool) :=
  flat_map (fun c => match c with StoreWriteValue v u => [(v, u)] | _ => [] end) t.

Definition events_of (t : list Call) : list VehiclePropValue :=
  flat_map (fun c => match c with HalEvent v => [v] | _ => [] end) t.

(* ===================================================================== *)
(** * The broker *)
(* ===================================================================== *)

Definition kHeartBeatIntervalNs : Z := 3 * 1000000000.

Definition to_int32 (x : Z) : Z := (x + 2 ^ 31) mod 2 ^ 32 - 2 ^ 31.

Section Broker.
Context {utils : VehicleUtils} {clock : SystemClock}.
Context {S C : Type} {store : VehiclePropertyStore S} {client : VehicleHalClient C}.

(** The state reachable from a [DefaultVehicleHal] object. *)
Record Hal : Type := {
  mPropStore : S;
  mVehicleClient : C;
  clockReads : nat;
  trace : list Call;
}.

Definition M (A : Type) : Type := Hal -> Result (A * Hal).

Definition ret {A : Type} (a : A) : M A := fun h => Done (a, h).

Definition bind {A B : Type} (m : M A) (k : A -> M B) : M B :=
  fun h => match m h with
           | Done (a, h') => k a h'
           | Undefined f => Undefined f
           end.

Definition lift {A : Type} (r : Result A) : M A :=
  fun h => match r with
           | Done a => Done (a, h)
           | Undefined f => Undefined f
           end.

Declare Scope hal_scope.
Delimit Scope hal_scope with hal.
Notation "x <- m ;; k" := (bind m (fun x => k))
  (at level 100, m at next level, right associativity) : hal_scope.
Local Open Scope hal_scope.

Fixpoint for_each {A : Type} (l : list A) (body : A -> M unit) : M unit :=
  match l with
  | [] => ret tt
  | x :: l' => _ <- body x ;; for_each l' body
  end.

Definition record (c : Call) (h : Hal) : Hal :=
  {| mPropStore := mPropStore h; mVehicleClient := mVehicleClient h;
     clockReads := clockReads h; trace := trace h ++ [c] |}.

(** ** Calls on the collaborators *)

Definition store_getConfigOrNull (property : Z) : M (option VehiclePropConfig) :=
  fun h => Done (getConfigOrNull (mPropStore h) property,
                 record (StoreGetConfigOrNull property) h).

Definition store_readValueOrNull (request : VehiclePropValue)
    : M (option VehiclePropValue) :=
  fun h => Done (readValueOrNull (mPropStore h) request,
                 record (StoreReadValueOrNull request) h).

Definition store_readValueOrNullByProp (property : Z) : M (option VehiclePropValue) :=
  fun h => Done (readValueOrNullByProp (mPropStore h) property,
                 record (StoreReadValueOrNullByProp property) h).

Definition store_getAllConfigs : M (list VehiclePropConfig) :=
  fun h => Done (getAllConfigs (mPropStore h), record StoreGetAllConfigs h).

Definition store_writeValue (v : VehiclePropValue) (updateStatus : bool) : M bool :=
  fun h =>
    let '(s', changed) := writeValue (mPropStore h) v updateStatus in
    Done (changed,
          {| mPropStore := s'; mVehicleClient := mVehicleClient h;
             clockReads := clockReads h;
             trace := trace h ++ [StoreWriteValue v updateStatus] |}).

Definition store_registerProperty (cfg : VehiclePropConfig) : M unit :=
  fun h =>
    Done (tt,
          {| mPropStore := registerProperty (mPropStore h) cfg;
             mVehicleClient := mVehicleClient h;
             clockReads := clockReads h;
             trace := trace h ++ [StoreRegisterProperty cfg] |}).

Definition client_getAllPropertyConfig : M (list VehiclePropConfig) :=
  fun h => Done (getAllPropertyConfig (mVehicleClient h),
                 record ClientGetAllPropertyConfig h).

Definition client_setProperty (v : VehiclePropValue) (updateStatus : bool)
    : M StatusCode :=
  fun h =>
    let '(c', st) := setProperty (mVehicleClient h) v updateStatus in
    Done (st,
          {| mPropStore := mPropStore h; mVehicleClient := c';
             clockReads := clockReads h;
             trace := trace h ++ [ClientSetProperty v updateStatus] |}).

Definition client_triggerSendAllValues : M unit :=
  fun h =>
    Done (tt,
          {| mPropStore := mPropStore h;
             mVehicleClient := triggerSendAllValues (mVehicleClient h);
             clockReads := clockReads h;
             trace := trace h ++ [ClientTriggerSendAllValues] |}).

Definition timer_registerRecurrentEvent (interval cookie : Z) : M unit :=
  fun h => Done (tt, record (TimerRegisterRecurrentEvent interval cookie) h).

Definition timer_unregisterRecurrentEvent (cookie : Z) : M unit :=
  fun h => Done (tt, record (TimerUnregisterRecurrentEvent cookie) h).

Definition doHalEvent (v : VehiclePropValue) : M unit :=
  fun h => Done (tt, record (HalEvent v) h).

Definition tick (h : Hal) : Hal :=
  {| mPropStore := mPropStore h; mVehicleClient := mVehicleClient h;
     clockReads := Datatypes.S (clockReads h); trace := trace h |}.

Definition elapsedRealtimeNano : M Z :=
  fun h => Done (elapsedRealtimeNano_at (clockReads h), tick h).

Definition uptimeMillis : M Z :=
  fun h => Done (uptimeMillis_at (clockReads h), tick h).

(** ** Operations of [DefaultVehicleHal] *)

(** [DefaultVehicleHal::get]; the result is the returned pointer together
    with [*outStatus]. *)
Definition get (requestedPropValue : VehiclePropValue)
    : M (option VehiclePropValue * StatusCode) :=
  internalPropValue <- store_readValueOrNull requestedPropValue ;;
  let v := match internalPropValue with
           | Some i => obtain i
           | None => None
           end in
  let outStatus := match v with
                   | None => INVALID_ARG
                   | Some v' => if decide (status v' = AVAILABLE) then OK else TRY_AGAIN
                   end in
  match v with
  | Some v' =>
      now <- elapsedRealtimeNano ;;
      ret (Some (set_timestamp now v'), outStatus)
  | None => ret (None, outStatus)
  end.

(** [DefaultVehicleHal::listProperties] *)
Definition listProperties : M (list VehiclePropConfig) := store_getAllConfigs.

(** [DefaultVehicleHal::set] *)
Definition set (propValue : VehiclePropValue) : M StatusCode :=
  if negb (bool_decide (status propValue = AVAILABLE)) then ret INVALID_ARG else
  let property := prop propValue in
  config <- store_getConfigOrNull property ;;
  match config with
  | None => ret INVALID_ARG
  | Some config =>
      status1 <- lift (checkPropValue propValue config) ;;
      if negb (bool_decide (status1 = OK)) then ret status1 else
      status2 <- lift (checkValueRange propValue config) ;;
      if negb (bool_decide (status2 = OK)) then ret status2 else
      currentPropValue <- store_readValueOrNull propValue ;;
      if match currentPropValue with
         | Some cur => negb (bool_decide (status cur = AVAILABLE))
         | None => false
         end
      then ret NOT_AVAILABLE
      else client_setProperty propValue false
  end.

(** [DefaultVehicleHal::registerHeartBeatEvent] *)
Definition registerHeartBeatEvent : M unit :=
  timer_registerRecurrentEvent kHeartBeatIntervalNs VHAL_HEARTBEAT.

(** The body of the inner loop of [onCreate] for index [i]. *)
Definition onCreate_area (cfg : VehiclePropConfig) (i : nat) : M unit :=
  curArea <- (if isGlobalProp (cfgProp cfg) then ret 0
              else ac <- lift (at_index (areaConfigs cfg) i) ;; ret (cfgAreaId ac)) ;;
  let prop0 := {| timestamp := 0; areaId := curArea; prop := cfgProp cfg;
                  status := UNAVAILABLE; value := emptyRawValue |} in
  _ <- store_writeValue prop0 true ;;
  ret tt.

(** The body of the outer loop of [onCreate]. *)
Definition onCreate_config (cfg : VehiclePropConfig) : M unit :=
  let numAreas := if isGlobalProp (cfgProp cfg) then 0
                  else to_int32 (size (areaConfigs cfg)) in
  for_each (seq 0 (Z.to_nat numAreas)) (onCreate_area cfg).

(** [DefaultVehicleHal::onCreate] *)
Definition onCreate : M unit :=
  configs <- client_getAllPropertyConfig ;;
  _ <- for_each configs onCreate_config ;;
  _ <- client_triggerSendAllValues ;;
  registerHeartBeatEvent.

(** [DefaultVehicleHal::createVhalHeartBeatProp] *)
Definition createVhalHeartBeatProp : M VehiclePropValue :=
  up <- uptimeMillis ;;
  let v := obtainInt64 up in
  ret {| timestamp := timestamp v; areaId := 0; prop := VHAL_HEARTBEAT;
         status := AVAILABLE; value := value v |}.

(** [DefaultVehicleHal::doInternalHealthCheck] *)
Definition doInternalHealthCheck : M (option VehiclePropValue) :=
  let propValue := {| timestamp := 0; areaId := 0; prop := PERF_VEHICLE_SPEED;
                      status := AVAILABLE; value := emptyRawValue |} in
  internalPropValue <- store_readValueOrNull propValue ;;
  match internalPropValue with
  | Some _ => v <- createVhalHeartBeatProp ;; ret (Some v)
  | None => ret None
  end.

(** [DefaultVehicleHal::isContinuousProperty] *)
Definition isContinuousProperty (propId : Z) : M bool :=
  config <- store_getConfigOrNull propId ;;
  match config with
  | None => ret false
  | Some config => ret (bool_decide (changeMode config = CONTINUOUS))
  end.

(** The tail of the loop body of [onContinuousPropertyTimer]:
    [if (v.get()) { v->timestamp = ...; doHalEvent(std::move(v)); }]. *)
Definition emit (v : option VehiclePropValue) : M unit :=
  match v with
  | Some v' =>
      now <- elapsedRealtimeNano ;;
      doHalEvent (set_timestamp now v')
  | None => ret tt
  end.

(** The loop body of [onContinuousPropertyTimer]. *)
Definition onTimerProperty (property : Z) : M unit :=
  continuous <- isContinuousProperty property ;;
  if continuous then
    internalPropValue <- store_readValueOrNullByProp property ;;
    emit (match internalPropValue with
          | Some i => obtain i
          | None => None
          end)
  else if property =? VHAL_HEARTBEAT then
    v <- doInternalHealthCheck ;;
    emit v
  else ret tt.

(** [DefaultVehicleHal::onContinuousPropertyTimer] *)
Definition onContinuousPropertyTimer (properties : list Z) : M unit :=
  for_each properties onTimerProperty.

(** [DefaultVehicleHal::subscribe] *)
Definition subscribe (property : Z) (sampleRate : float) : M StatusCode :=
  continuous <- isContinuousProperty property ;;
  if negb continuous then ret INVALID_ARG else
  config <- store_getConfigOrNull property ;;
  config <- lift (deref NullDereference config) ;;
  if flt sampleRate (minSampleRate config) || fgt sampleRate (maxSampleRate config)
  then ret INVALID_ARG
  else
    _ <- timer_registerRecurrentEvent (hertzToNanoseconds sampleRate) property ;;
    ret OK.

(** [DefaultVehicleHal::unsubscribe] *)
Definition unsubscribe (property : Z) : M StatusCode :=
  continuous <- isContinuousProperty property ;;
  if negb continuous then ret INVALID_ARG else
  _ <- timer_unregisterRecurrentEvent property ;;
  ret OK.

(** [DefaultVehicleHal::onPropertyValue] *)
Definition onPropertyValue (value0 : VehiclePropValue) (updateStatus : bool) : M unit :=
  updatedPropValue <- lift (deref NullDereference (obtain value0)) ;;
  changed <- store_writeValue updatedPropValue updateStatus ;;
  if changed then doHalEvent updatedPropValue else ret tt.

(** [DefaultVehicleHal::initStaticConfig] *)
Definition initStaticConfig : M unit :=
  configs <- client_getAllPropertyConfig ;;
  for_each configs store_registerProperty.

End Broker.

Arguments Hal S C : clear implicits.
Arguments M S C A : clear implicits.

(* ===================================================================== *)
(** * A small instance of the collaborators *)
(* ===================================================================== *)

(** One instance of each interface, to evaluate the broker on concrete
    inputs. *)
Module Sample.

(** Modelled from the spec: the property id "carries an embedded group and
    type tag"; here with the masks of the Vehicle HAL 2.0 interface
    (type [0x00ff0000], area [0x0f000000], group [0xf0000000]). *)
Definition propType (p : Z) : VehiclePropertyType :=
  match Z.land p 0x00ff0000 with
  | 0x00100000 => STRING
  | 0x00200000 => BOOLEAN
  | 0x00400000 => INT32
  | 0x00410000 => INT32_VEC
  | 0x00500000 => INT64
  | 0x00510000 => INT64_VEC
  | 0x00600000 => FLOAT
  | 0x00610000 => FLOAT_VEC
  | 0x00700000 => BYTES
  | 0x00e00000 => MIXED
  | raw => UNKNOWN_TYPE raw
  end.

Definition propGroup (p : Z) : VehiclePropertyGroup :=
  match Z.land p 0xf0000000 with
  | 0x10000000 => SYSTEM
  | 0x20000000 => VENDOR
  | raw => UNKNOWN_GROUP raw
  end.

Definition globalProp (p : Z) : bool := Z.land p 0x0f000000 =? 0x01000000.

(** The interval conversion is floating-point division in the header; no
    statement below depends on its value, a constant stands for it. *)
#[global] Instance utils : VehicleUtils := {|
  getPropType := propType;
  getPropGroup := propGroup;
  isGlobalProp := globalProp;
  VHAL_HEARTBEAT := 0x11500f33;
  PERF_VEHICLE_SPEED := 0x11600207;
  hertzToNanoseconds := fun _ => 1000000000;
|}.

#[global] Instance clock : SystemClock := {|
  elapsedRealtimeNano_at := fun n => 1000000 * Z.of_nat n;
  uptimeMillis_at := fun n => Z.of_nat n;
|}.

(** Modelled from the spec: a store holding the current value per
    (property, area) and the schema per property. *)
Record Store : Type := {
  values : gmap (Z * Z) VehiclePropValue;
  configs : gmap Z VehiclePropConfig;
}.

Definition key (v : VehiclePropValue) : Z * Z :=
  (prop v, if globalProp (prop v) then 0 else areaId v).

#[global] Instance store : VehiclePropertyStore Store := {|
  readValueOrNull := fun s request => values s !! key request;
  readValueOrNullByProp := fun s p => values s !! (p, 0);
  writeValue := fun s v updateStatus =>
    match configs s !! prop v with
    | None => (s, false)
    | Some _ =>
        let v' := if updateStatus then v
                  else {| timestamp := timestamp v; areaId := areaId v; prop := prop v;
                          status := match values s !! key v with
                                    | Some old => status old
                                    | None => AVAILABLE
                                    end;
                          value := value v |} in
        ({| values := <[key v := v']> (values s); configs := configs s |}, true)
    end;
  getConfigOrNull := fun s p => configs s !! p;
  getAllConfigs := fun s => (map_to_list (configs s)).*2;
  registerProperty := fun s cfg =>
    {| values := values s; configs := <[cfgProp cfg := cfg]> (configs s) |};
|}.

(** A client that accepts every forwarded value and counts them. *)
Record Client : Type := {
  discovered : list VehiclePropConfig;
  forwarded : nat;
}.

#[global] Instance client : VehicleHalClient Client := {|
  getAllPropertyConfig := discovered;
  setProperty := fun c _ _ =>
    ({| discovered := discovered c; forwarded := Datatypes.S (forwarded c) |}, OK);
  triggerSendAllValues := fun c => c;
|}.

Definition hal (cfgs : list VehiclePropConfig) (vals : list VehiclePropValue)
    : Hal Store Client :=
  {| mPropStore := {| values := list_to_map (List.map (fun v => (key v, v)) vals);
                      configs := list_to_map (List.map (fun c => (cfgProp c, c)) cfgs) |};
     mVehicleClient := {| discovered := cfgs; forwarded := 0 |};
     clockReads := 0;
     trace := [] |}.

(** Floats used below, in canonical binary32 form (24-bit mantissa):
    1.0, 5.0, 10.0, 20.0 and a NaN. *)
Definition f1 : float := S754_finite false 8388608 (-23).
Definition f5 : float := S754_finite false 10485760 (-21).
Definition f10 : float := S754_finite false 10485760 (-20).
Definition f20 : float := S754_finite false 10485760 (-19).
Definition fNaN : float := S754_nan.

Definition int32Bounds (area lo hi : Z) : VehicleAreaConfig :=
  {| cfgAreaId := area; minInt32Value := lo; maxInt32Value := hi;
     minInt64Value := 0; maxInt64Value := 0;
     minFloatValue := fzero; maxFloatValue := fzero |}.

Definition config (p : Z) (mode : VehiclePropertyChangeMode)
    (areas : list VehicleAreaConfig) (arr : list Z) : VehiclePropConfig :=
  {| cfgProp := p; changeMode := mode; areaConfigs := areas; configArray := arr;
     minSampleRate := f1; maxSampleRate := f10 |}.

Definition int32Value (p area : Z) (st : VehiclePropertyStatus) (x : Z)
    : VehiclePropValue :=
  {| timestamp := 0; areaId := area; prop := p; status := st;
     value := {| int32Values := [x]; floatValues := []; int64Values := [];
                 bytes := []; stringValue := [] |} |}.

Definition emptyValue (p area : Z) (st : VehiclePropertyStatus) : VehiclePropValue :=
  {| timestamp := 0; areaId := area; prop := p; status := st;
     value := emptyRawValue |}.

(** Property ids: an area-scoped (seat) INT32, a global INT32, a global
    FLOAT marked continuous in the schemas below, a vendor MIXED. *)
Definition HVAC_FAN_SPEED : Z := 0x15400500.
Definition NIGHT_MODE_INT : Z := 0x11400407.
Definition VENDOR_MIXED : Z := 0x21e01111.

(** Schemas and states used in the closed statements below. *)
Definition speedConfig : VehiclePropConfig :=
  config 0x11600207 CONTINUOUS [] [].

Definition nightModeConfig : VehiclePropConfig :=
  config NIGHT_MODE_INT ON_CHANGE [] [].

Definition fanConfig : VehiclePropConfig :=
  config HVAC_FAN_SPEED ON_CHANGE [int32Bounds 1 1 7; int32Bounds 4 1 7] [].

Definition mixedConfig (arr : list Z) : VehiclePropConfig :=
  config VENDOR_MIXED ON_CHANGE [] arr.

(** Layouts: a flag with value 2; one int and an int array of length 2; a
    [configArray] of four entries; an empty one. *)
Definition flagTwoLayout : VehiclePropConfig := mixedConfig [0; 2; 0; 0; 0; 0; 0; 0; 0].
Definition intArrayLayout : VehiclePropConfig := mixedConfig [0; 0; 1; 2; 0; 0; 0; 0; 0].
Definition shortLayout : VehiclePropConfig := mixedConfig [0; 0; 0; 0].
Definition emptyLayout : VehiclePropConfig := mixedConfig [].

Definition fanValue (area : Z) (st : VehiclePropertyStatus) (x : Z) : VehiclePropValue :=
  int32Value HVAC_FAN_SPEED area st x.

(** States: the fan schema with the area-1 value still a placeholder, and
    with an AVAILABLE value; the speed schema with a stored speed. *)
Definition fanPending : Hal Store Client :=
  hal [fanConfig] [fanValue 1 UNAVAILABLE 0].

Definition fanReady : Hal Store Client :=
  hal [fanConfig] [fanValue 1 AVAILABLE 2].

Definition speedValue : VehiclePropValue :=
  {| timestamp := 5; areaId := 0; prop := 0x11600207; status := AVAILABLE;
     value := {| int32Values := []; floatValues := [f5]; int64Values := [];
                 bytes := []; stringValue := [] |} |}.

Definition speedReady : Hal Store Client :=
  hal [speedConfig] [speedValue].

(** States whose clock has been read three times before, holding values
    stored with timestamp 5: a fan placeholder and the speed. *)
Definition staleFan : VehiclePropValue :=
  {| timestamp := 5; areaId := 1; prop := HVAC_FAN_SPEED; status := UNAVAILABLE;
     value := {| int32Values := [0]; floatValues := []; int64Values := [];
                 bytes := []; stringValue := [] |} |}.

Definition later (h : Hal Store Client) : Hal Store Client :=
  {| mPropStore := mPropStore h; mVehicleClient := mVehicleClient h;
     clockReads := 3; trace := trace h |}.

Definition fanLater : Hal Store Client := later (hal [fanConfig] [staleFan]).

Definition speedLater : Hal Store Client := later speedReady.

(** A store in which the heartbeat id itself has a CONTINUOUS schema, the
    speed being stored. *)
Definition heartbeatContinuous : Hal Store Client :=
  hal [config 0x11500f33 CONTINUOUS [] []; speedConfig] [speedValue].

(** Inputs of the range checks: a fan schema without bounds, a speed schema
    with the float bounds 1.0 and 10.0, and a speed value that is NaN. *)
Definition fanUnbounded : VehiclePropConfig :=
  config HVAC_FAN_SPEED ON_CHANGE [int32Bounds 1 0 0] [].

Definition floatBounds (area : Z) (lo hi : float) : VehicleAreaConfig :=
  {| cfgAreaId := area; minInt32Value := 0; maxInt32Value := 0;
     minInt64Value := 0; maxInt64Value := 0;
     minFloatValue := lo; maxFloatValue := hi |}.

Definition speedBounded : VehiclePropConfig :=
  config 0x11600207 CONTINUOUS [floatBounds 0 f1 f10] [].

Definition speedNaN : VehiclePropValue :=
  {| timestamp := 5; areaId := 0; prop := 0x11600207; status := AVAILABLE;
     value := {| int32Values := []; floatValues := [fNaN]; int64Values := [];
                 bytes := []; stringValue := [] |} |}.

End Sample.

(* ===================================================================== *)
(** * Vocabulary of the statements *)
(* ===================================================================== *)

(** [flag ? 1 : 0], a flag counted as soon as it is nonzero. *)
Definition flag_nonzero (c : Z) : Z := if c =? 0 then 0 else 1.

(** [flag == 1 ? 1 : 0], a flag counted only when it is exactly 1. *)
Definition flag_is_one (c : Z) : Z := if c =? 1 then 1 else 0.

(** A vendor MIXED payload disagrees with the layout in [configArray]:
    some int32/int64/float length differs from its expected count, or the
    byte length differs from a nonzero [configArray[8]].  [flag] says how a
    has-value flag contributes to a count. *)
Definition mixed_mismatch (flag : Z -> Z)
    (v : VehiclePropValue) (cfg : VehiclePropConfig) : Prop :=
  let c := fun i => List.nth i (configArray cfg) 0 in
  size (int32Values (value v)) <> flag (c 1%nat) + flag (c 2%nat) + c 3%nat
  \/ size (int64Values (value v)) <> flag (c 4%nat) + c 5%nat
  \/ size (floatValues (value v)) <> flag (c 6%nat) + c 7%nat
  \/ (c 8%nat <> 0 /\ size (bytes (value v)) <> c 8%nat).

(** The single-value numeric types, the only ones [checkValueRange]
    compares against bounds. *)
Definition scalar_numeric (ty : VehiclePropertyType) : bool :=
  match ty with
  | INT32 | INT64 | FLOAT => true
  | _ => false
  end.

Section BrokerVocabulary.
Context {utils : VehicleUtils} {clock : SystemClock}.
Context {S C : Type} {store : VehiclePropertyStore S} {client : VehicleHalClient C}.

(** [delta] is the sequence of collaborator calls made from [h] to [h']. *)
Definition calls_between (h h' : Hal S C) (delta : list Call) : Prop :=
  trace h' = trace h ++ delta.

(** The reasons for which [set] fails, each one under the condition that
    the checks before it passed, with the error returned and the calls made
    on the collaborators up to that point. *)
Inductive set_rejects (h : Hal S C) (v : VehiclePropValue)
    : StatusCode -> list Call -> Prop :=
  | reject_status :
      status v <> AVAILABLE ->
      set_rejects h v INVALID_ARG []
  | reject_no_config :
      status v = AVAILABLE ->
      getConfigOrNull (mPropStore h) (prop v) = None ->
      set_rejects h v INVALID_ARG [StoreGetConfigOrNull (prop v)]
  | reject_schema (cfg : VehiclePropConfig) :
      status v = AVAILABLE ->
      getConfigOrNull (mPropStore h) (prop v) = Some cfg ->
      checkPropValue v cfg = Done INVALID_ARG ->
      set_rejects h v INVALID_ARG [StoreGetConfigOrNull (prop v)]
  | reject_range (cfg : VehiclePropConfig) :
      status v = AVAILABLE ->
      getConfigOrNull (mPropStore h) (prop v) = Some cfg ->
      checkPropValue v cfg = Done OK ->
      checkValueRange v cfg = Done INVALID_ARG ->
      set_rejects h v INVALID_ARG [StoreGetConfigOrNull (prop v)]
  | reject_not_available (cfg : VehiclePropConfig) (cur : VehiclePropValue) :
      status v = AVAILABLE ->
      getConfigOrNull (mPropStore h) (prop v) = Some cfg ->
      checkPropValue v cfg = Done OK ->
      checkValueRange v cfg = Done OK ->
      readValueOrNull (mPropStore h) v = Some cur ->
      status cur <> AVAILABLE ->
      set_rejects h v NOT_AVAILABLE
        [StoreGetConfigOrNull (prop v); StoreReadValueOrNull v].

(** Every check of [set] passes. *)
Definition set_accepts (h : Hal S C) (v : VehiclePropValue) : Prop :=
  status v = AVAILABLE
  /\ (exists cfg, getConfigOrNull (mPropStore h) (prop v) = Some cfg
                  /\ checkPropValue v cfg = Done OK
                  /\ checkValueRange v cfg = Done OK)
  /\ (forall cur, readValueOrNull (mPropStore h) v = Some cur ->
                  status cur = AVAILABLE).


(** The placeholder [onCreate] builds for a (property, area) pair. *)
Definition placeholder (p area : Z) : VehiclePropValue :=
  {| timestamp := 0; areaId := area; prop := p;
     status := UNAVAILABLE; value := emptyRawValue |}.

(** The areas a schema implies: area 0 alone for a global property, the
    declared area configs otherwise. *)
Definition implied_areas (cfg : VehiclePropConfig) : list Z :=
  if isGlobalProp (cfgProp cfg) then [0]
  else List.map cfgAreaId (areaConfigs cfg).

Definition implied_placeholders (cfgs : list VehiclePropConfig)
    : list (VehiclePropValue * bool) :=
  flat_map (fun cfg =>
              List.map (fun a => (placeholder (cfgProp cfg) a, true))
                       (implied_areas cfg)) cfgs.

(** What the loops of [onCreate] hand to [writeValue]: nothing for a global
    property, one placeholder per declared area config otherwise. *)
Definition written_placeholders (cfgs : list VehiclePropConfig)
    : list (VehiclePropValue * bool) :=
  flat_map (fun cfg =>
              if isGlobalProp (cfgProp cfg) then []
              else List.map (fun ac => (placeholder (cfgProp cfg) (cfgAreaId ac), true))
                            (areaConfigs cfg)) cfgs.

(** The heartbeat value as emitted, and the request of the health probe. *)
Definition heartbeat (uptime now : Z) : VehiclePropValue :=
  {| timestamp := now; areaId := 0; prop := VHAL_HEARTBEAT; status := AVAILABLE;
     value := {| int32Values := []; floatValues := []; int64Values := [uptime];
                 bytes := []; stringValue := [] |} |}.

Definition canary : VehiclePropValue :=
  {| timestamp := 0; areaId := 0; prop := PERF_VEHICLE_SPEED;
     status := AVAILABLE; value := emptyRawValue |}.

(** The rate lies within [[minSampleRate, maxSampleRate]], bounds included. *)
Definition within_sample_range (rate : float) (cfg : VehiclePropConfig) : Prop :=
  fle (minSampleRate cfg) rate = true /\ fle rate (maxSampleRate cfg) = true.

(** The store has a schema for [p] and it is CONTINUOUS. *)
Definition continuous_in (s : S) (p : Z) : Prop :=
  exists cfg, getConfigOrNull s p = Some cfg /\ changeMode cfg = CONTINUOUS.

End BrokerVocabulary.

(** [v] is [stored] with its timestamp replaced by [now]: the timestamp is
    [now], every other field is the stored one. *)
Definition restamped (now : Z) (stored v : VehiclePropValue) : Prop :=
  timestamp v = now
  /\ areaId v = areaId stored
  /\ prop v = prop stored
  /\ status v = status stored
  /\ value v = value stored.

(** On a [configArray] of [n] entries, a length check that is reached before
    a missing position is read fails: the int32 check needs positions 1 to 3
    (four entries), the int64 check positions 4 and 5 (six entries), the
    float check positions 6 and 7 (eight entries). *)
Definition early_mismatch (v : VehiclePropValue) (cfg : VehiclePropConfig) : Prop :=
  let n := length (configArray cfg) in
  let c := fun i => List.nth i (configArray cfg) 0 in
  ((4 <= n)%nat
   /\ size (int32Values (value v))
      <> flag_is_one (c 1%nat) + flag_is_one (c 2%nat) + c 3%nat)
  \/ ((6 <= n)%nat
      /\ size (int64Values (value v)) <> flag_is_one (c 4%nat) + c 5%nat)
  \/ ((8 <= n)%nat
      /\ size (floatValues (value v)) <> flag_is_one (c 6%nat) + c 7%nat).

Section FurtherVocabulary.
Context {utils : VehicleUtils} {clock : SystemClock}.
Context {S C : Type} {store : VehiclePropertyStore S} {client : VehicleHalClient C}.

(** [ac] is the area config against which [checkValueRange] compares [v]:
    the first declared one for a global property; otherwise the first one,
    in declaration order, whose area id shares a bit with the value's. *)
Inductive checked_against (v : VehiclePropValue) (cfg : VehiclePropConfig)
    (ac : VehicleAreaConfig) : Prop :=
  | against_first (rest : list VehicleAreaConfig) :
      isGlobalProp (prop v) = true ->
      areaConfigs cfg = ac :: rest ->
      checked_against v cfg ac
  | against_matching (before after : list VehicleAreaConfig) :
      isGlobalProp (prop v) = false ->
      areaConfigs cfg = before ++ ac :: after ->
      Forall (fun c => Z.land (cfgAreaId c) (areaId v) = 0) before ->
      Z.land (cfgAreaId ac) (areaId v) <> 0 ->
      checked_against v cfg ac.

Definition with_areaConfigs (acs : list VehicleAreaConfig) (cfg : VehiclePropConfig)
    : VehiclePropConfig :=
  {| cfgProp := cfgProp cfg; changeMode := changeMode cfg; areaConfigs := acs;
     configArray := configArray cfg;
     minSampleRate := minSampleRate cfg; maxSampleRate := maxSampleRate cfg |}.

(** The calls a run of [set] can have made when it returns. *)
Definition set_call_shapes (v : VehiclePropValue) : list (list Call) :=
  [ [];
    [StoreGetConfigOrNull (prop v)];
    [StoreGetConfigOrNull (prop v); StoreReadValueOrNull v];
    [StoreGetConfigOrNull (prop v); StoreReadValueOrNull v; ClientSetProperty v false] ].

(** Calls that only read the store or hand an event to the sink. *)
Definition is_read_or_event (c : Call) : bool :=
  match c with
  | HalEvent _ => true
  | _ => is_store_read c
  end.

(** The store calls of the loops of [onCreate], in order. *)
Definition placeholder_calls (cfgs : list VehiclePropConfig) : list Call :=
  List.map (fun w => StoreWriteValue w.1 w.2) (written_placeholders cfgs).

(** The uptime clock advances from each reading to the next. *)
Definition uptime_increasing : Prop :=
  forall m n : nat, (m < n)%nat -> uptimeMillis_at m < uptimeMillis_at n.

End FurtherVocabulary.

(* ===================================================================== *)
(** * Properties of the validation functions *)
(* ===================================================================== *)

Ltac case_bool :=
  match goal with
  | |- context [ if ?b then _ else _ ] => destruct b eqn:?
  end.

Lemma size_nonneg {A : Type} (l : list A) : 0 <= size l.
Proof. unfold size. lia. Qed.

Lemma size_length {A : Type} (l : list A) (n : nat) :
  size l = Z.of_nat n <-> length l = n.
Proof. unfold size. lia. Qed.

Lemma at_index_Done {A : Type} (l : list A) (i : nat) (x : A) :
  at_index l i = Done x <-> l !! i = Some x.
Proof. unfold at_index. destruct (l !! i); split; congruence. Qed.

Lemma at_index_short {A : Type} (l : list A) (i : nat) :
  (length l <= i)%nat -> at_index l i = Undefined OutOfBounds.
Proof.
  intros Hlen. unfold at_index.
  rewrite (proj2 (lookup_ge_None l i)); [reflexivity | lia].
Qed.

Lemma at_index_in_range {A : Type} (l : list A) (i : nat) :
  (i < length l)%nat -> exists x, at_index l i = Done x.
Proof.
  intros Hlen. unfold at_index.
  destruct (lookup_lt_is_Some_2 l i Hlen) as [x ->]. eauto.
Qed.

Section ValidationFacts.
Context {utils : VehicleUtils}.

(** C6: [checkPropValue] enforces the arity that belongs to the type tag of
    the property id: exactly one int32 for BOOLEAN and INT32, at least one
    for INT32_VEC, and likewise for the int64 and float payloads; BYTES and
    STRING are accepted whatever their length; MIXED outside the vendor
    group is accepted unconditionally (inside it the vendor check decides);
    an unrecognised tag is INVALID_ARG. *)
Theorem checkPropValue_arity (v : VehiclePropValue) (cfg : VehiclePropConfig) :
  let ty := getPropType (prop v) in
  let r := checkPropValue v cfg in
  let n32 := length (int32Values (value v)) in
  let n64 := length (int64Values (value v)) in
  let nfl := length (floatValues (value v)) in
  (ty = BOOLEAN \/ ty = INT32 ->
     r = Done (if decide (n32 = 1%nat) then OK else INVALID_ARG))
  /\ (ty = INT32_VEC ->
     r = Done (if decide (1 <= n32)%nat then OK else INVALID_ARG))
  /\ (ty = INT64 ->
     r = Done (if decide (n64 = 1%nat) then OK else INVALID_ARG))
  /\ (ty = INT64_VEC ->
     r = Done (if decide (1 <= n64)%nat then OK else INVALID_ARG))
  /\ (ty = FLOAT ->
     r = Done (if decide (nfl = 1%nat) then OK else INVALID_ARG))
  /\ (ty = FLOAT_VEC ->
     r = Done (if decide (1 <= nfl)%nat then OK else INVALID_ARG))
  /\ (ty = BYTES \/ ty = STRING -> r = Done OK)
  /\ (ty = MIXED -> getPropGroup (prop v) <> VENDOR -> r = Done OK)
  /\ (ty = MIXED -> getPropGroup (prop v) = VENDOR ->
     r = checkVendorMixedPropValue v cfg)
  /\ (forall raw, ty = UNKNOWN_TYPE raw -> r = Done INVALID_ARG).
Proof.
  cbv zeta. unfold checkPropValue, size.
  repeat split.
  - intros [-> | ->]; case_decide; case_bool; try reflexivity; lia.
  - intros ->; case_decide; case_bool; try reflexivity; lia.
  - intros ->; case_decide; case_bool; try reflexivity; lia.
  - intros ->; case_decide; case_bool; try reflexivity; lia.
  - intros ->; case_decide; case_bool; try reflexivity; lia.
  - intros ->; case_decide; case_bool; try reflexivity; lia.
  - intros [-> | ->]; reflexivity.
  - intros -> Hg. case_decide; [contradiction | reflexivity].
  - intros -> Hg. case_decide; [reflexivity | contradiction].
  - intros raw ->. reflexivity.
Qed.

End ValidationFacts.

Section MixedFacts.

Lemma size_add_small (a b : Z) :
  0 <= a + b < SIZE_MAX1 -> size_add a b = a + b.
Proof. intros Hr. unfold size_add. apply Z.mod_small. exact Hr. Qed.

(** A length that fits a [hidl_vec] equals the [size_t] count computed by
    the code exactly when it equals the count computed in the integers. *)
Lemma size_count_eq (s f c : Z) :
  0 <= s <= UINT32_MAX -> 0 <= f <= 2 -> is_int32 c ->
  s = size_add f (to_size_t c) <-> s = f + c.
Proof.
  unfold UINT32_MAX, is_int32, size_add, to_size_t, SIZE_MAX1.
  intros Hs Hf Hc.
  destruct (Z_lt_le_dec c 0) as [Hneg | Hpos].
  - replace (c mod 2 ^ 64) with (c + 2 ^ 64).
    2:{ symmetry. rewrite <- (Z_mod_plus_full c 1 (2 ^ 64)).
        apply Z.mod_small. lia. }
    destruct (Z_lt_le_dec (f + c) 0) as [Hlow | Hhigh].
    + rewrite Z.mod_small by lia. lia.
    + replace (f + (c + 2 ^ 64)) with ((f + c) + 1 * 2 ^ 64) by lia.
      rewrite Z_mod_plus_full. rewrite Z.mod_small by lia. lia.
  - rewrite (Z.mod_small c) by lia. rewrite Z.mod_small by lia. lia.
Qed.

Lemma size_cast_eq (s c : Z) :
  0 <= s <= UINT32_MAX -> is_int32 c -> c <> 0 ->
  s = to_size_t c <-> s = c.
Proof.
  unfold UINT32_MAX, is_int32, to_size_t, SIZE_MAX1.
  intros Hs Hc Hnz.
  destruct (Z_lt_le_dec c 0) as [Hneg | Hpos].
  - replace (c mod 2 ^ 64) with (c + 2 ^ 64).
    2:{ symmetry. rewrite <- (Z_mod_plus_full c 1 (2 ^ 64)).
        apply Z.mod_small. lia. }
    lia.
  - rewrite Z.mod_small by lia. lia.
Qed.

Lemma flag_is_one_range (c : Z) : 0 <= flag_is_one c <= 1.
Proof. unfold flag_is_one. destruct (c =? 1); lia. Qed.

(** The counts as the code accumulates them. *)
Lemma count2 (c1 c2 : Z) :
  (if c2 =? 1 then size_add (if c1 =? 1 then size_add 0 1 else 0) 1
   else (if c1 =? 1 then size_add 0 1 else 0))
  = flag_is_one c1 + flag_is_one c2.
Proof. unfold flag_is_one. destruct (c1 =? 1), (c2 =? 1); reflexivity. Qed.

Lemma count1 (c : Z) :
  (if c =? 1 then size_add 0 1 else 0) = flag_is_one c.
Proof. unfold flag_is_one. destruct (c =? 1); reflexivity. Qed.

(** [checkVendorMixedPropValue] on a [configArray] of at least nine
    entries, as one decision. *)
Lemma checkVendorMixedPropValue_unfold (v : VehiclePropValue) (cfg : VehiclePropConfig)
    (c0 c1 c2 c3 c4 c5 c6 c7 c8 : Z) (rest : list Z) :
  configArray cfg = c0 :: c1 :: c2 :: c3 :: c4 :: c5 :: c6 :: c7 :: c8 :: rest ->
  checkVendorMixedPropValue v cfg =
    if negb (size (int32Values (value v))
             =? size_add (flag_is_one c1 + flag_is_one c2) (to_size_t c3))
    then Done INVALID_ARG
    else if negb (size (int64Values (value v))
                  =? size_add (flag_is_one c4) (to_size_t c5))
    then Done INVALID_ARG
    else if negb (size (floatValues (value v))
                  =? size_add (flag_is_one c6) (to_size_t c7))
    then Done INVALID_ARG
    else if negb (c8 =? 0) && negb (size (bytes (value v)) =? to_size_t c8)
    then Done INVALID_ARG
    else Done OK.
Proof.
  intros Hca. unfold checkVendorMixedPropValue. rewrite Hca.
  cbn [at_index lookup list_lookup rbind].
  rewrite count2, !count1. reflexivity.
Qed.

End MixedFacts.

Section MixedClaims.

Lemma nine_entries (l : list Z) :
  (9 <= length l)%nat ->
  exists c0 c1 c2 c3 c4 c5 c6 c7 c8 rest,
    l = c0 :: c1 :: c2 :: c3 :: c4 :: c5 :: c6 :: c7 :: c8 :: rest.
Proof.
  intros Hlen.
  do 9 (destruct l as [| ? l]; [simpl in Hlen; lia |]).
  repeat eexists.
Qed.

Lemma checkVendorMixedPropValue_string (s : list Z)
    (v : VehiclePropValue) (cfg : VehiclePropConfig) :
  checkVendorMixedPropValue (set_stringValue s v) cfg
  = checkVendorMixedPropValue v cfg.
Proof. reflexivity. Qed.

(** C5, amended: for a vendor MIXED value whose vectors fit a [hidl_vec]
    and a schema with at least nine int32 entries in [configArray],
    [checkVendorMixedPropValue] rejects with INVALID_ARG if and only if the
    int32 length differs from [(configArray[1]==1 ? 1 : 0) +
    (configArray[2]==1 ? 1 : 0) + configArray[3]], or the int64 length from
    [(configArray[4]==1 ? 1 : 0) + configArray[5]], or the float length
    from [(configArray[6]==1 ? 1 : 0) + configArray[7]], or
    [configArray[8]] is nonzero and differs from the byte length; otherwise
    it returns OK; the string never matters. *)
Theorem checkVendorMixedPropValue_iff (v : VehiclePropValue) (cfg : VehiclePropConfig) :
  wf_value v -> wf_configArray cfg -> (9 <= length (configArray cfg))%nat ->
  (checkVendorMixedPropValue v cfg = Done INVALID_ARG
     <-> mixed_mismatch flag_is_one v cfg)
  /\ (checkVendorMixedPropValue v cfg = Done OK
     <-> ~ mixed_mismatch flag_is_one v cfg)
  /\ (forall s, checkVendorMixedPropValue (set_stringValue s v) cfg
                = checkVendorMixedPropValue v cfg).
Proof.
  intros [W32 W64 Wfl Wby] Wca Hlen.
  destruct (nine_entries _ Hlen)
    as (c0 & c1 & c2 & c3 & c4 & c5 & c6 & c7 & c8 & rest & Hca).
  unfold wf_configArray in Wca. rewrite Hca in Wca.
  repeat (apply Forall_cons in Wca; destruct Wca as [? Wca]).
  pose proof (size_nonneg (int32Values (value v))) as P32.
  pose proof (size_nonneg (int64Values (value v))) as P64.
  pose proof (size_nonneg (floatValues (value v))) as Pfl.
  pose proof (size_nonneg (bytes (value v))) as Pby.
  pose proof (flag_is_one_range c1). pose proof (flag_is_one_range c2).
  pose proof (flag_is_one_range c4). pose proof (flag_is_one_range c6).
  assert (E32 : size (int32Values (value v))
                = size_add (flag_is_one c1 + flag_is_one c2) (to_size_t c3)
                <-> size (int32Values (value v))
                    = flag_is_one c1 + flag_is_one c2 + c3)
    by (apply size_count_eq; [lia | lia | assumption]).
  assert (E64 : size (int64Values (value v))
                = size_add (flag_is_one c4) (to_size_t c5)
                <-> size (int64Values (value v)) = flag_is_one c4 + c5)
    by (apply size_count_eq; [lia | lia | assumption]).
  assert (Efl : size (floatValues (value v))
                = size_add (flag_is_one c6) (to_size_t c7)
                <-> size (floatValues (value v)) = flag_is_one c6 + c7)
    by (apply size_count_eq; [lia | lia | assumption]).
  assert (Eby : c8 <> 0 -> (size (bytes (value v)) = to_size_t c8
                            <-> size (bytes (value v)) = c8))
    by (intros; apply size_cast_eq; [lia | assumption | assumption]).
  split; [| split; [| intros s; apply checkVendorMixedPropValue_string]];
    rewrite (checkVendorMixedPropValue_unfold v cfg _ _ _ _ _ _ _ _ _ _ Hca);
    unfold mixed_mismatch; rewrite Hca; cbn [List.nth];
    destruct (Z.eqb_spec (size (int32Values (value v)))
                (size_add (flag_is_one c1 + flag_is_one c2) (to_size_t c3)));
    destruct (Z.eqb_spec (size (int64Values (value v)))
                (size_add (flag_is_one c4) (to_size_t c5)));
    destruct (Z.eqb_spec (size (floatValues (value v)))
                (size_add (flag_is_one c6) (to_size_t c7)));
    destruct (Z.eqb_spec c8 0);
    destruct (Z.eqb_spec (size (bytes (value v))) (to_size_t c8));
    cbn [negb andb];
    (split; [ intros Hres; try discriminate Hres; tauto
            | intros Hm; try reflexivity; exfalso; tauto ]).
Qed.

Ltac mixed_short_case :=
  cbn [at_index lookup list_lookup rbind length List.nth];
  rewrite ?count2, ?count1;
  repeat match goal with
         | |- context [ ?a =? ?b ] => destruct (Z.eqb_spec a b)
         end;
  cbn [negb];
  (split; intros Hm;
   [ first [ reflexivity | exfalso; intuition lia ]
   | first [ reflexivity | exfalso; apply Hm; intuition lia ] ]).

(** C10, amended: [checkVendorMixedPropValue] returns a result (OK or
    INVALID_ARG) whenever [configArray] has at least nine entries.  It
    reads positions 1 to 8 in order and returns at the first length check
    that fails.  On a [configArray] of fewer than four entries it always
    reads out of bounds.  On one of four to eight entries (of a well-typed
    value and schema) it returns INVALID_ARG when a length check reached
    before the first missing position fails, and reads out of bounds in
    every other case. *)
Theorem checkVendorMixedPropValue_bounds (v : VehiclePropValue) (cfg : VehiclePropConfig) :
  ((9 <= length (configArray cfg))%nat ->
     checkVendorMixedPropValue v cfg = Done OK
     \/ checkVendorMixedPropValue v cfg = Done INVALID_ARG)
  /\ ((length (configArray cfg) < 4)%nat ->
     checkVendorMixedPropValue v cfg = Undefined OutOfBounds)
  /\ ((4 <= length (configArray cfg) < 9)%nat ->
     wf_value v -> wf_configArray cfg ->
     (early_mismatch v cfg -> checkVendorMixedPropValue v cfg = Done INVALID_ARG)
     /\ (~ early_mismatch v cfg ->
         checkVendorMixedPropValue v cfg = Undefined OutOfBounds)).
Proof.
  split; [| split].
  - intros Hlen.
    destruct (nine_entries _ Hlen)
      as (c0 & c1 & c2 & c3 & c4 & c5 & c6 & c7 & c8 & rest & Hca).
    rewrite (checkVendorMixedPropValue_unfold v cfg _ _ _ _ _ _ _ _ _ _ Hca).
    repeat case_bool; auto.
  - intros Hlen. unfold checkVendorMixedPropValue.
    destruct (configArray cfg) as [| c0 l]; [reflexivity |].
    do 3 (destruct l as [| ? l]; [reflexivity |]).
    simpl in Hlen. lia.
  - intros Hlen [W32 W64 Wfl Wby] Wca.
    unfold wf_configArray in Wca.
    unfold early_mismatch, checkVendorMixedPropValue.
    pose proof (size_nonneg (int32Values (value v))) as P32.
    pose proof (size_nonneg (int64Values (value v))) as P64.
    pose proof (size_nonneg (floatValues (value v))) as Pfl.
    assert (E32 : forall c1 c2 c3, is_int32 c3 ->
              size (int32Values (value v))
              = size_add (flag_is_one c1 + flag_is_one c2) (to_size_t c3)
              <-> size (int32Values (value v))
                  = flag_is_one c1 + flag_is_one c2 + c3).
    { intros c1 c2 c3 Hc3.
      pose proof (flag_is_one_range c1). pose proof (flag_is_one_range c2).
      apply size_count_eq; [lia | lia | assumption]. }
    assert (E64 : forall c4 c5, is_int32 c5 ->
              size (int64Values (value v)) = size_add (flag_is_one c4) (to_size_t c5)
              <-> size (int64Values (value v)) = flag_is_one c4 + c5).
    { intros c4 c5 Hc5. pose proof (flag_is_one_range c4).
      apply size_count_eq; [lia | lia | assumption]. }
    assert (Efl : forall c6 c7, is_int32 c7 ->
              size (floatValues (value v)) = size_add (flag_is_one c6) (to_size_t c7)
              <-> size (floatValues (value v)) = flag_is_one c6 + c7).
    { intros c6 c7 Hc7. pose proof (flag_is_one_range c6).
      apply size_count_eq; [lia | lia | assumption]. }
    destruct (configArray cfg) as [| c0 l]; [simpl in Hlen; lia |].
    destruct l as [| c1 l]; [simpl in Hlen; lia |].
    destruct l as [| c2 l]; [simpl in Hlen; lia |].
    destruct l as [| c3 l]; [simpl in Hlen; lia |].
    repeat (apply Forall_cons in Wca; destruct Wca as [? Wca]).
    specialize (E32 c1 c2 c3 ltac:(assumption)).
    destruct l as [| c4 l]; [mixed_short_case |].
    destruct l as [| c5 l]; [mixed_short_case |].
    repeat (apply Forall_cons in Wca; destruct Wca as [? Wca]).
    specialize (E64 c4 c5 ltac:(assumption)).
    destruct l as [| c6 l]; [mixed_short_case |].
    destruct l as [| c7 l]; [mixed_short_case |].
    repeat (apply Forall_cons in Wca; destruct Wca as [? Wca]).
    specialize (Efl c6 c7 ltac:(assumption)).
    destruct l as [| c8 l]; [mixed_short_case |].
    simpl in Hlen. lia.
Qed.

End MixedClaims.

Section RangeFacts.
Context {utils : VehicleUtils}.

(** An area-scoped scalar property whose area id matches no declared area
    config reaches the [switch] with the pointer never assigned. *)
Lemma checkValueRange_unresolved (v : VehiclePropValue) (cfg : VehiclePropConfig) :
  isGlobalProp (prop v) = false ->
  findAreaConfig v cfg = None ->
  scalar_numeric (getPropType (prop v)) = true ->
  checkValueRange v cfg = Undefined UninitializedPointer.
Proof.
  intros Hglobal Hfind Hty. unfold checkValueRange.
  rewrite Hglobal, Hfind.
  destruct (getPropType (prop v)); try discriminate Hty; reflexivity.
Qed.

(** X20: the types other than INT32, INT64 and FLOAT are not range-checked:
    the answer is OK whatever the payload and the area configs are, also
    when no area config matches the value's area. *)
Lemma checkValueRange_unchecked (v : VehiclePropValue) (cfg : VehiclePropConfig) :
  scalar_numeric (getPropType (prop v)) = false ->
  checkValueRange v cfg = Done OK.
Proof.
  intros Hty. unfold checkValueRange.
  destruct (isGlobalProp (prop v)).
  - destruct (areaConfigs cfg); [reflexivity |].
    destruct (getPropType (prop v)); try discriminate Hty; reflexivity.
  - destruct (getPropType (prop v)); try discriminate Hty; reflexivity.
Qed.

Lemma checkAreaRange_resolved (v : VehiclePropValue) (cfg : VehiclePropConfig)
    (ac : VehicleAreaConfig) :
  checkPropValue v cfg = Done OK ->
  checkAreaRange (getPropType (prop v)) v (Some ac) = Done OK
  \/ checkAreaRange (getPropType (prop v)) v (Some ac) = Done INVALID_ARG.
Proof.
  unfold checkPropValue, checkAreaRange.
  destruct (getPropType (prop v)); auto; intros Hok;
    cbn [deref rbind]; case_bool; auto;
    match type of Hok with
    | (if negb (size ?l =? 1) then _ else _) = _ =>
        destruct l as [| x [| y l']]; try discriminate Hok
    end;
    cbn [assert at_index lookup list_lookup rbind size length Z.of_nat Z.gtb Z.compare];
    cbn; case_bool; auto.
Qed.

(** X21: with the arity checked by [checkPropValue] and the area resolved (a
    global property, or an area config sharing a bit with the value's
    area), [checkValueRange] returns OK or INVALID_ARG: the assertion on the
    payload size holds and no pointer is left unassigned. *)
Lemma checkValueRange_resolved (v : VehiclePropValue) (cfg : VehiclePropConfig) :
  checkPropValue v cfg = Done OK ->
  isGlobalProp (prop v) = true \/ findAreaConfig v cfg <> None ->
  checkValueRange v cfg = Done OK \/ checkValueRange v cfg = Done INVALID_ARG.
Proof.
  intros Hok Hres. unfold checkValueRange.
  destruct (isGlobalProp (prop v)).
  - destruct (areaConfigs cfg); [auto |].
    apply (checkAreaRange_resolved v cfg); assumption.
  - destruct Hres as [Hres | Hres]; [discriminate Hres |].
    destruct (findAreaConfig v cfg) as [ac |]; [| contradiction].
    apply (checkAreaRange_resolved v cfg); assumption.
Qed.

End RangeFacts.

(** C2: [checkValueRange] on an area-scoped INT32 value whose area id (2)
    shares no bit with the only declared area config (area 1): the area
    config pointer is never assigned and the INT32 case dereferences it. *)
Theorem checkValueRange_unresolved_area :
  checkValueRange (utils := Sample.utils)
    (Sample.int32Value Sample.HVAC_FAN_SPEED 2 AVAILABLE 3)
    (Sample.config Sample.HVAC_FAN_SPEED ON_CHANGE [Sample.int32Bounds 1 1 7] [])
  = Undefined UninitializedPointer.
Proof. reflexivity. Qed.

(* ===================================================================== *)
(** * Properties of the broker *)
(* ===================================================================== *)

Ltac run :=
  unfold bind, ret, lift, record, tick,
    store_getConfigOrNull, store_readValueOrNull, store_readValueOrNullByProp,
    store_getAllConfigs, store_writeValue, store_registerProperty,
    client_getAllPropertyConfig, client_setProperty, client_triggerSendAllValues,
    timer_registerRecurrentEvent, timer_unregisterRecurrentEvent,
    doHalEvent, elapsedRealtimeNano, uptimeMillis in *;
  cbn [mPropStore mVehicleClient clockReads trace fst snd] in *.

Ltac step :=
  cbn -[readValueOrNull readValueOrNullByProp writeValue getConfigOrNull
        getAllConfigs registerProperty getAllPropertyConfig setProperty
        triggerSendAllValues checkPropValue checkValueRange
        elapsedRealtimeNano_at uptimeMillis_at hertzToNanoseconds].

Ltac exec :=
  repeat first
    [ progress run
    | progress step
    | rewrite bool_decide_true by (assumption || reflexivity)
    | rewrite bool_decide_false by (assumption || discriminate) ].

Lemma writes_of_app (t1 t2 : list Call) :
  writes_of (t1 ++ t2) = writes_of t1 ++ writes_of t2.
Proof. unfold writes_of. apply flat_map_app. Qed.

Lemma events_of_app (t1 t2 : list Call) :
  events_of (t1 ++ t2) = events_of t1 ++ events_of t2.
Proof. unfold events_of. apply flat_map_app. Qed.

Section ReadPath.
Context {utils : VehicleUtils} {clock : SystemClock}.
Context {S C : Type} {store : VehiclePropertyStore S} {client : VehicleHalClient C}.

(** C4: [get] looks the request up in the store.  Without a stored value the
    status is INVALID_ARG and no value is returned.  With one, the status is
    OK when the stored status is AVAILABLE and TRY_AGAIN otherwise, and the
    returned value has as timestamp the clock reading taken during the
    call, whatever timestamp was stored, and the stored area, property,
    status and payload.  [get] leaves the store as it is. *)
Theorem get_lookup (req : VehiclePropValue) (h : Hal S C) :
  let now := elapsedRealtimeNano_at (clockReads h) in
  (readValueOrNull (mPropStore h) req = None ->
     exists h', get req h = Done ((None, INVALID_ARG), h')
                /\ mPropStore h' = mPropStore h)
  /\ (forall stored, readValueOrNull (mPropStore h) req = Some stored ->
        status stored = AVAILABLE ->
        exists h' v, get req h = Done ((Some v, OK), h')
                     /\ restamped now stored v
                     /\ mPropStore h' = mPropStore h)
  /\ (forall stored, readValueOrNull (mPropStore h) req = Some stored ->
        status stored <> AVAILABLE ->
        exists h' v, get req h = Done ((Some v, TRY_AGAIN), h')
                     /\ restamped now stored v
                     /\ mPropStore h' = mPropStore h).
Proof.
  cbv zeta. unfold get. run. repeat split.
  - intros ->. cbn. eauto.
  - intros stored -> Hst. cbn. rewrite decide_True by assumption.
    eexists _, _. split; [reflexivity |]. repeat split.
  - intros stored -> Hst. cbn. rewrite decide_False by assumption.
    eexists _, _. split; [reflexivity |]. repeat split.
Qed.

End ReadPath.

Section WritePath.
Context {utils : VehicleUtils} {clock : SystemClock}.
Context {S C : Type} {store : VehiclePropertyStore S} {client : VehicleHalClient C}.

Ltac close_calls :=
  unfold calls_between, record, tick; cbn [trace];
  rewrite <- ?app_assoc; cbn [app];
  first [ reflexivity | symmetry; apply app_nil_r ].

(** C3: whenever [set] fails for one of its own reasons -- the value's status
    is not AVAILABLE, no schema is registered, [checkPropValue] or
    [checkValueRange] answers INVALID_ARG, or the stored value exists with a
    status other than AVAILABLE -- taken in this order, [set] returns the
    corresponding error (INVALID_ARG, or NOT_AVAILABLE for the last one)
    having made only the calls that precede the failing check; none of them
    is [setProperty], and the client is left untouched. *)
Theorem set_rejects_without_forwarding
    (h : Hal S C) (v : VehiclePropValue) (e : StatusCode) (delta : list Call) :
  set_rejects h v e delta ->
  exists h',
    set v h = Done (e, h')
    /\ calls_between h h' delta
    /\ forallb (fun c => negb (is_setProperty c)) delta = true
    /\ mVehicleClient h' = mVehicleClient h.
Proof.
  intros Hrej. unfold set.
  destruct Hrej as [Hst | Hst Hcfg | cfg Hst Hcfg Hchk | cfg Hst Hcfg Hchk Hrng
                    | cfg cur Hst Hcfg Hchk Hrng Hcur Hcst].
  - exec. exists h. repeat split. close_calls.
  - exec. rewrite Hcfg.
    eexists. repeat split.
  - exec. rewrite Hcfg, Hchk. exec.
    eexists. repeat split.
  - exec. rewrite Hcfg, Hchk. exec. rewrite Hrng. exec.
    eexists. repeat split.
  - exec. rewrite Hcfg, Hchk. exec. rewrite Hrng. exec. rewrite Hcur. exec.
    eexists. repeat split. close_calls.
Qed.

(** X22: when every check passes, [set] forwards the value once, as given
    and with [updateStatus = false], and returns what the client answers,
    whatever status code that is. *)
Lemma set_forwards (h : Hal S C) (v : VehiclePropValue) :
  set_accepts h v ->
  exists h',
    set v h = Done ((setProperty (mVehicleClient h) v false).2, h')
    /\ calls_between h h'
         [StoreGetConfigOrNull (prop v); StoreReadValueOrNull v;
          ClientSetProperty v false]
    /\ mVehicleClient h' = (setProperty (mVehicleClient h) v false).1.
Proof.
  intros (Hst & (cfg & Hcfg & Hchk & Hrng) & Hcur). unfold set.
  exec. rewrite Hcfg, Hchk. exec. rewrite Hrng. exec.
  destruct (readValueOrNull (mPropStore h) v) as [cur |] eqn:Hread.
  - rewrite bool_decide_true by (apply Hcur; reflexivity). exec.
    destruct (setProperty (mVehicleClient h) v false) as [c' st].
    eexists. split; [reflexivity | split; [close_calls | reflexivity]].
  - exec. destruct (setProperty (mVehicleClient h) v false) as [c' st].
    eexists. split; [reflexivity | split; [close_calls | reflexivity]].
Qed.

(** The two checks answer OK or INVALID_ARG when they answer. *)
Lemma checkVendorMixedPropValue_codes (v : VehiclePropValue) (cfg : VehiclePropConfig)
    (st : StatusCode) :
  checkVendorMixedPropValue v cfg = Done st -> st = OK \/ st = INVALID_ARG.
Proof.
  unfold checkVendorMixedPropValue.
  repeat first
    [ match goal with
      | |- context [ rbind (at_index ?l ?i) _ ] =>
          destruct (at_index l i); cbn [rbind]; [| discriminate]
      end
    | case_bool ];
    intros [= <-]; auto.
Qed.

Lemma checkPropValue_codes (v : VehiclePropValue) (cfg : VehiclePropConfig)
    (st : StatusCode) :
  checkPropValue v cfg = Done st -> st = OK \/ st = INVALID_ARG.
Proof.
  unfold checkPropValue.
  destruct (getPropType (prop v));
    try (case_bool; intros [= <-]; auto; fail);
    try (intros [= <-]; auto; fail).
  case_decide; [apply checkVendorMixedPropValue_codes | intros [= <-]; auto].
Qed.

Lemma checkAreaRange_codes (ty : VehiclePropertyType) (v : VehiclePropValue)
    (ac : option VehicleAreaConfig) (st : StatusCode) :
  checkAreaRange ty v ac = Done st -> st = OK \/ st = INVALID_ARG.
Proof.
  unfold checkAreaRange.
  destruct ty; try (intros [= <-]; auto);
    (destruct ac as [ac |]; [| discriminate]); cbn [deref rbind];
    (case_bool; [intros [= <-]; auto |]);
    (destruct (assert _); [| discriminate]); cbn [rbind];
    (destruct (at_index _ _); [| discriminate]); cbn [rbind];
    case_bool; intros [= <-]; auto.
Qed.

Lemma checkValueRange_codes (v : VehiclePropValue) (cfg : VehiclePropConfig)
    (st : StatusCode) :
  checkValueRange v cfg = Done st -> st = OK \/ st = INVALID_ARG.
Proof.
  unfold checkValueRange.
  destruct (isGlobalProp (prop v)).
  - destruct (areaConfigs cfg); [intros [= <-]; auto |].
    apply checkAreaRange_codes.
  - apply checkAreaRange_codes.
Qed.


(** [set] returns as soon as the two checks it runs return. *)
Lemma set_returns (h : Hal S C) (v : VehiclePropValue) :
  (forall cfg, getConfigOrNull (mPropStore h) (prop v) = Some cfg ->
     returns (checkPropValue v cfg) /\ returns (checkValueRange v cfg)) ->
  returns (set v h).
Proof.
  intros Hdef. unfold returns, set.
  case_bool; [eexists; reflexivity |].
  run.
  destruct (getConfigOrNull (mPropStore h) (prop v)) as [cfg |];
    [| eexists; reflexivity].
  destruct (Hdef cfg eq_refl) as [[st1 E1] [st2 E2]].
  rewrite E1. step. case_bool; [eexists; reflexivity |].
  rewrite E2. step. case_bool; [eexists; reflexivity |].
  case_bool; [eexists; reflexivity |].
  exec. destruct (setProperty (mVehicleClient h) v false).
  eexists; reflexivity.
Qed.

(** C9: a call to [set] that returns leaves the property store as it was,
    and none of the calls it makes is a store write ([writeValue],
    [registerProperty]); the store is written by the push callback
    [onPropertyValue], which hands the pushed value to [writeValue]. *)
Theorem set_store_frame (h : Hal S C) (v : VehiclePropValue) :
  (forall r h', set v h = Done (r, h') ->
     mPropStore h' = mPropStore h
     /\ exists delta, calls_between h h' delta
          /\ forallb (fun c => negb (is_store_write c)) delta = true)
  /\ (forall updateStatus, exists h',
        onPropertyValue v updateStatus h = Done (tt, h')
        /\ mPropStore h' = (writeValue (mPropStore h) v updateStatus).1
        /\ writes_of (trace h') = writes_of (trace h) ++ [(v, updateStatus)]).
Proof.
  split.
  - intros r h'. unfold set.
    case_bool.
    { exec. intros [= <- <-]. split; [reflexivity |].
      exists []. split; [close_calls | reflexivity]. }
    run.
    destruct (getConfigOrNull (mPropStore h) (prop v)) as [cfg |].
    2:{ intros [= <- <-]. split; [reflexivity |].
        exists [StoreGetConfigOrNull (prop v)]. split; [close_calls | reflexivity]. }
    destruct (checkPropValue v cfg) as [st1 | f1]; [| discriminate].
    step. case_bool.
    { intros [= <- <-]. split; [reflexivity |].
      exists [StoreGetConfigOrNull (prop v)]. split; [close_calls | reflexivity]. }
    destruct (checkValueRange v cfg) as [st2 | f2]; [| discriminate].
    step. case_bool.
    { intros [= <- <-]. split; [reflexivity |].
      exists [StoreGetConfigOrNull (prop v)]. split; [close_calls | reflexivity]. }
    case_bool.
    { intros [= <- <-]. split; [reflexivity |].
      exists [StoreGetConfigOrNull (prop v); StoreReadValueOrNull v].
      split; [close_calls | reflexivity]. }
    exec. destruct (setProperty (mVehicleClient h) v false) as [c' st].
    intros [= <- <-]. split; [reflexivity |].
    exists [StoreGetConfigOrNull (prop v); StoreReadValueOrNull v;
            ClientSetProperty v false].
    split; [close_calls | reflexivity].
  - intros updateStatus. unfold onPropertyValue, obtain. run. cbn [deref].
    destruct (writeValue (mPropStore h) v updateStatus) as [s' changed].
    destruct changed; eexists; (split; [reflexivity |]);
      unfold record; cbn [mPropStore trace fst]; (split; [reflexivity |]);
      rewrite !writes_of_app; cbn; rewrite ?app_nil_r; reflexivity.
Qed.

End WritePath.

(* ===================================================================== *)
(** * Comparison of floats *)
(* ===================================================================== *)

Lemma SFcompare_antisym (x y : float) :
  SFcompare y x = option_map CompOpp (SFcompare x y).
Proof.
  destruct x as [sx | sx | | sx mx ex], y as [sy | sy | | sy my ey];
    cbn [SFcompare option_map];
    try reflexivity;
    try (destruct sx; reflexivity);
    try (destruct sy; reflexivity);
    try (destruct sx, sy; reflexivity).
  destruct sx, sy; cbn [CompOpp]; try reflexivity;
    rewrite (Z.compare_antisym ex ey);
    destruct (ex ?= ey); cbn [CompOpp]; try reflexivity;
    change (Pos.compare_cont Eq my mx) with (Pos.compare my mx);
    change (Pos.compare_cont Eq mx my) with (Pos.compare mx my);
    rewrite (Pos.compare_antisym mx my);
    destruct (mx ?= my)%positive; reflexivity.
Qed.

Lemma SFcompare_defined (x y : float) :
  is_nan x = false -> is_nan y = false -> exists c, SFcompare x y = Some c.
Proof.
  destruct x, y; cbn [is_nan SFcompare]; intros; try discriminate; eauto.
Qed.

(** Away from NaN, [x < y] is the negation of [y <= x]. *)
Lemma flt_negb_fle (x y : float) :
  is_nan x = false -> is_nan y = false -> flt x y = negb (fle y x).
Proof.
  intros Hx Hy. unfold flt, fle, SFltb, SFleb.
  rewrite (SFcompare_antisym x y).
  destruct (SFcompare_defined x y Hx Hy) as [c ->].
  destruct c; reflexivity.
Qed.

(** A comparison with NaN is false. *)
Lemma flt_nan_l (y : float) : flt S754_nan y = false.
Proof. reflexivity. Qed.

Lemma flt_nan_r (x : float) : flt x S754_nan = false.
Proof. destruct x; reflexivity. Qed.

Lemma fle_nan_r (x : float) : fle x S754_nan = false.
Proof. destruct x; reflexivity. Qed.

(* ===================================================================== *)
(** * Subscription *)
(* ===================================================================== *)

Section Subscription.
Context {utils : VehicleUtils} {clock : SystemClock}.
Context {S C : Type} {store : VehiclePropertyStore S} {client : VehicleHalClient C}.

Lemma isContinuousProperty_run (p : Z) (h : Hal S C) :
  isContinuousProperty p h =
    Done (match getConfigOrNull (mPropStore h) p with
          | Some cfg => bool_decide (changeMode cfg = CONTINUOUS)
          | None => false
          end,
          record (StoreGetConfigOrNull p) h).
Proof.
  unfold isContinuousProperty, bind, ret, store_getConfigOrNull.
  destruct (getConfigOrNull (mPropStore h) p); reflexivity.
Qed.

Lemma not_continuous_in (s : S) (p : Z) :
  ~ continuous_in s p ->
  match getConfigOrNull s p with
  | Some cfg => bool_decide (changeMode cfg = CONTINUOUS)
  | None => false
  end = false.
Proof.
  intros Hnc. destruct (getConfigOrNull s p) as [cfg |] eqn:Hcfg; [| reflexivity].
  apply bool_decide_false. intros Hmode. apply Hnc. exists cfg. auto.
Qed.

(** Without a CONTINUOUS schema, [subscribe] answers INVALID_ARG after one
    schema lookup. *)
Lemma subscribe_not_continuous (p : Z) (rate : float) (h : Hal S C) :
  ~ continuous_in (mPropStore h) p ->
  subscribe p rate h = Done (INVALID_ARG, record (StoreGetConfigOrNull p) h).
Proof.
  intros Hnc. unfold subscribe, bind at 1.
  rewrite isContinuousProperty_run, (not_continuous_in _ _ Hnc). reflexivity.
Qed.

(** With a CONTINUOUS schema, the two comparisons of the code decide. *)
Lemma subscribe_continuous (p : Z) (rate : float) (h : Hal S C)
    (cfg : VehiclePropConfig) :
  getConfigOrNull (mPropStore h) p = Some cfg ->
  changeMode cfg = CONTINUOUS ->
  subscribe p rate h =
    if flt rate (minSampleRate cfg) || fgt rate (maxSampleRate cfg)
    then Done (INVALID_ARG,
               record (StoreGetConfigOrNull p) (record (StoreGetConfigOrNull p) h))
    else Done (OK,
               record (TimerRegisterRecurrentEvent (hertzToNanoseconds rate) p)
                 (record (StoreGetConfigOrNull p)
                    (record (StoreGetConfigOrNull p) h))).
Proof.
  intros Hcfg Hmode. unfold subscribe, bind at 1.
  rewrite isContinuousProperty_run, Hcfg, (bool_decide_true _ Hmode).
  cbn [negb]. unfold bind, store_getConfigOrNull, lift, ret, timer_registerRecurrentEvent.
  cbn [mPropStore record]. rewrite Hcfg. cbn [deref].
  destruct (flt rate (minSampleRate cfg) || fgt rate (maxSampleRate cfg)); reflexivity.
Qed.

Lemma within_sample_range_decides (rate : float) (cfg : VehiclePropConfig) :
  is_nan rate = false ->
  is_nan (minSampleRate cfg) = false ->
  is_nan (maxSampleRate cfg) = false ->
  within_sample_range rate cfg
  <-> flt rate (minSampleRate cfg) || fgt rate (maxSampleRate cfg) = false.
Proof.
  intros Hr Hmin Hmax. unfold within_sample_range, fgt.
  fold (flt (maxSampleRate cfg) rate).
  rewrite (flt_negb_fle rate (minSampleRate cfg) Hr Hmin).
  rewrite (flt_negb_fle (maxSampleRate cfg) rate Hmax Hr).
  destruct (fle (minSampleRate cfg) rate), (fle rate (maxSampleRate cfg));
    cbn; intuition congruence.
Qed.

(** C7, amended: [subscribe] returns INVALID_ARG and registers nothing when
    the store has no CONTINUOUS schema for the property.  With a CONTINUOUS
    schema, and a rate and bounds that are numbers (not NaN), it returns OK
    exactly when the rate lies within [[minSampleRate, maxSampleRate]],
    bounds included, and then registers the property with the recurrent
    timer at the interval of that rate; outside the range it returns
    INVALID_ARG and registers nothing. *)
Theorem subscribe_rate_check (p : Z) (rate : float) (h : Hal S C) :
  (~ continuous_in (mPropStore h) p ->
     exists h' delta,
       subscribe p rate h = Done (INVALID_ARG, h')
       /\ calls_between h h' delta
       /\ forallb (fun c => negb (is_timer_register c)) delta = true)
  /\ (forall cfg,
        getConfigOrNull (mPropStore h) p = Some cfg ->
        changeMode cfg = CONTINUOUS ->
        is_nan rate = false ->
        is_nan (minSampleRate cfg) = false ->
        is_nan (maxSampleRate cfg) = false ->
        (within_sample_range rate cfg ->
           exists h',
             subscribe p rate h = Done (OK, h')
             /\ calls_between h h'
                  [StoreGetConfigOrNull p; StoreGetConfigOrNull p;
                   TimerRegisterRecurrentEvent (hertzToNanoseconds rate) p])
        /\ (~ within_sample_range rate cfg ->
           exists h' delta,
             subscribe p rate h = Done (INVALID_ARG, h')
             /\ calls_between h h' delta
             /\ forallb (fun c => negb (is_timer_register c)) delta = true)).
Proof.
  split.
  - intros Hnc. rewrite (subscribe_not_continuous p rate h Hnc).
    eexists _, [StoreGetConfigOrNull p].
    split; [reflexivity | split; [reflexivity | reflexivity]].
  - intros cfg Hcfg Hmode Hr Hmin Hmax.
    rewrite (subscribe_continuous p rate h cfg Hcfg Hmode).
    pose proof (within_sample_range_decides rate cfg Hr Hmin Hmax) as Hdec.
    destruct (flt rate (minSampleRate cfg) || fgt rate (maxSampleRate cfg)).
    + split.
      * intros Hin. apply Hdec in Hin. discriminate Hin.
      * intros _. eexists _, [StoreGetConfigOrNull p; StoreGetConfigOrNull p].
        split; [reflexivity | split; [| reflexivity]].
        unfold calls_between, record. cbn [trace].
        rewrite <- app_assoc. reflexivity.
    + split.
      * intros _. eexists. split; [reflexivity |].
        unfold calls_between, record. cbn [trace].
        rewrite <- !app_assoc. reflexivity.
      * intros Hout. exfalso. apply Hout, Hdec. reflexivity.
Qed.

End Subscription.

(** C7, as stated, fails on a NaN rate: the property is CONTINUOUS with
    bounds 1.0 and 10.0, NaN does not lie within them, and yet [subscribe]
    returns OK and registers the property with the timer. *)
Lemma subscribe_accepts_nan :
  ~ within_sample_range Sample.fNaN Sample.speedConfig
  /\ exists h',
       subscribe (utils := Sample.utils) (store := Sample.store) (C := Sample.Client)
         0x11600207 Sample.fNaN (Sample.hal [Sample.speedConfig] [])
       = Done (OK, h')
       /\ trace h' = [StoreGetConfigOrNull 0x11600207; StoreGetConfigOrNull 0x11600207;
                      TimerRegisterRecurrentEvent
                        (hertzToNanoseconds (VehicleUtils := Sample.utils) Sample.fNaN)
                        0x11600207].
Proof.
  split.
  - intros [Hlo _]. discriminate Hlo.
  - eexists. split; vm_compute; reflexivity.
Qed.

(* ===================================================================== *)
(** * Timer dispatch and heartbeat *)
(* ===================================================================== *)

Section Timer.
Context {utils : VehicleUtils} {clock : SystemClock}.
Context {S C : Type} {store : VehiclePropertyStore S} {client : VehicleHalClient C}.

Lemma for_each_app {A : Type} (l1 l2 : list A) (body : A -> M S C unit) (h : Hal S C) :
  for_each (l1 ++ l2) body h
  = match for_each l1 body h with
    | Done (_, h1) => for_each l2 body h1
    | Undefined f => Undefined f
    end.
Proof.
  revert h. induction l1 as [| x l1 IH]; intros h; [reflexivity |].
  cbn [app for_each]. unfold bind.
  destruct (body x h) as [[[] h0] | f]; [apply IH | reflexivity].
Qed.

(** [emit] never fails and does not touch the store. *)
Lemma emit_run (v : option VehiclePropValue) (h : Hal S C) :
  emit v h =
    Done (tt, match v with
              | Some v' =>
                  record (HalEvent (set_timestamp
                                      (elapsedRealtimeNano_at (clockReads h)) v'))
                         (tick h)
              | None => h
              end).
Proof. destruct v; reflexivity. Qed.

(** Processing one due property never fails and leaves the store alone. *)
Lemma onTimerProperty_total (p : Z) (h : Hal S C) :
  exists h', onTimerProperty p h = Done (tt, h') /\ mPropStore h' = mPropStore h.
Proof.
  unfold onTimerProperty, bind at 1. rewrite isContinuousProperty_run.
  destruct (match getConfigOrNull (mPropStore h) p with
            | Some cfg => bool_decide (changeMode cfg = CONTINUOUS)
            | None => false
            end).
  - unfold bind, store_readValueOrNullByProp. rewrite emit_run.
    eexists. split; [reflexivity |].
    destruct (readValueOrNullByProp _ _); reflexivity.
  - destruct (p =? VHAL_HEARTBEAT).
    + unfold bind, doInternalHealthCheck, store_readValueOrNull, bind.
      destruct (readValueOrNull _ _).
      * unfold createVhalHeartBeatProp, bind, uptimeMillis, ret.
        rewrite emit_run. eexists. split; reflexivity.
      * unfold ret. rewrite emit_run. eexists. split; reflexivity.
    + eexists. split; reflexivity.
Qed.

Lemma onContinuousPropertyTimer_total (properties : list Z) (h : Hal S C) :
  exists h', onContinuousPropertyTimer properties h = Done (tt, h')
             /\ mPropStore h' = mPropStore h.
Proof.
  unfold onContinuousPropertyTimer. revert h.
  induction properties as [| p l IH]; intros h.
  - exists h. split; reflexivity.
  - cbn [for_each]. unfold bind.
    destruct (onTimerProperty_total p h) as (h1 & -> & Hs1).
    destruct (IH h1) as (h2 & -> & Hs2).
    exists h2. split; [reflexivity | congruence].
Qed.

(** The heartbeat id, when the store does not mark it CONTINUOUS: the health
    probe decides whether a heartbeat is emitted. *)
Lemma onTimerProperty_heartbeat (h : Hal S C) :
  ~ continuous_in (mPropStore h) VHAL_HEARTBEAT ->
  exists h',
    onTimerProperty VHAL_HEARTBEAT h = Done (tt, h')
    /\ events_of (trace h') =
         events_of (trace h) ++
         match readValueOrNull (mPropStore h) canary with
         | Some _ => [heartbeat (uptimeMillis_at (clockReads h))
                                (elapsedRealtimeNano_at (Datatypes.S (clockReads h)))]
         | None => []
         end.
Proof.
  intros Hnc. unfold onTimerProperty, bind at 1.
  rewrite isContinuousProperty_run, (not_continuous_in _ _ Hnc).
  rewrite Z.eqb_refl.
  unfold bind, doInternalHealthCheck, store_readValueOrNull, bind.
  cbn [mPropStore record]. fold canary.
  destruct (readValueOrNull (mPropStore h) canary).
  - unfold createVhalHeartBeatProp, bind, uptimeMillis, ret.
    rewrite emit_run. eexists. split; [reflexivity |].
    unfold record, tick. cbn [trace clockReads].
    rewrite !events_of_app. cbn. rewrite <- ?app_assoc. cbn. reflexivity.
  - unfold ret. rewrite emit_run. eexists. split; [reflexivity |].
    unfold record. cbn [trace].
    rewrite !events_of_app. cbn. rewrite <- ?app_assoc. cbn. reflexivity.
Qed.

(** C8, amended: on a timer tick that contains the heartbeat id, provided
    the store holds no CONTINUOUS schema for that id, processing the id
    emits a heartbeat event if and only if the store holds a value for the
    canary property
    PERF_VEHICLE_SPEED.  The emitted value has the heartbeat id, area 0,
    status AVAILABLE, the uptime reading as its single int64 payload and the
    realtime reading taken afterwards as timestamp; without a canary value
    nothing is emitted for the id.  [h1] is the state after the ids before
    the heartbeat id, [h2] the state after it. *)
Theorem heartbeat_on_tick (before after : list Z) (h : Hal S C) :
  ~ continuous_in (mPropStore h) VHAL_HEARTBEAT ->
  exists h1 h2,
    onContinuousPropertyTimer before h = Done (tt, h1)
    /\ onTimerProperty VHAL_HEARTBEAT h1 = Done (tt, h2)
    /\ onContinuousPropertyTimer (before ++ VHAL_HEARTBEAT :: after) h
       = onContinuousPropertyTimer after h2
    /\ (readValueOrNull (mPropStore h) canary <> None ->
          events_of (trace h2) =
            events_of (trace h1) ++
            [heartbeat (uptimeMillis_at (clockReads h1))
                       (elapsedRealtimeNano_at (Datatypes.S (clockReads h1)))])
    /\ (readValueOrNull (mPropStore h) canary = None ->
          events_of (trace h2) = events_of (trace h1)).
Proof.
  intros Hnc.
  destruct (onContinuousPropertyTimer_total before h) as (h1 & Hbefore & Hs1).
  assert (Hnc1 : ~ continuous_in (mPropStore h1) VHAL_HEARTBEAT)
    by (rewrite Hs1; exact Hnc).
  destruct (onTimerProperty_heartbeat h1 Hnc1) as (h2 & Hhb & Hev).
  exists h1, h2. split; [exact Hbefore |]. split; [exact Hhb |]. split.
  - unfold onContinuousPropertyTimer in *.
    rewrite for_each_app, Hbefore. cbn [for_each]. unfold bind.
    rewrite Hhb. reflexivity.
  - rewrite Hs1 in Hev. split.
    + intros Hcan. rewrite Hev.
      destruct (readValueOrNull (mPropStore h) canary); [reflexivity | contradiction].
    + intros Hcan. rewrite Hev, Hcan. apply app_nil_r.
Qed.

End Timer.

(* ===================================================================== *)
(** * Initialization *)
(* ===================================================================== *)

Section Initialization.
Context {utils : VehicleUtils} {clock : SystemClock}.
Context {S C : Type} {store : VehiclePropertyStore S} {client : VehicleHalClient C}.

(** For a global property [numAreas] is 0: the inner loop does not run and
    no placeholder is written. *)
Lemma onCreate_config_global (cfg : VehiclePropConfig) (h : Hal S C) :
  isGlobalProp (cfgProp cfg) = true ->
  onCreate_config cfg h = Done (tt, h).
Proof.
  intros Hglobal. unfold onCreate_config. rewrite Hglobal. reflexivity.
Qed.

Lemma to_int32_small (x : Z) : 0 <= x < 2 ^ 31 -> to_int32 x = x.
Proof.
  intros Hx. unfold to_int32.
  rewrite Z.mod_small by lia. lia.
Qed.

(** One iteration of the inner loop for an area-scoped property. *)
Lemma onCreate_area_run (cfg : VehiclePropConfig) (i : nat) (ac : VehicleAreaConfig)
    (h : Hal S C) :
  isGlobalProp (cfgProp cfg) = false ->
  areaConfigs cfg !! i = Some ac ->
  onCreate_area cfg i h =
    Done (tt,
          {| mPropStore :=
               (writeValue (mPropStore h)
                  (placeholder (cfgProp cfg) (cfgAreaId ac)) true).1;
             mVehicleClient := mVehicleClient h;
             clockReads := clockReads h;
             trace := trace h ++
                      [StoreWriteValue (placeholder (cfgProp cfg) (cfgAreaId ac)) true]
          |}).
Proof.
  intros Hglobal Hac. unfold onCreate_area. rewrite Hglobal.
  unfold bind, lift, ret, at_index, store_writeValue. rewrite Hac.
  fold (placeholder (cfgProp cfg) (cfgAreaId ac)).
  destruct (writeValue (mPropStore h) (placeholder (cfgProp cfg) (cfgAreaId ac)) true).
  reflexivity.
Qed.

(** The inner loop from index [k] on writes one placeholder per remaining
    area config, in order. *)
Lemma onCreate_areas_from (cfg : VehiclePropConfig) (m k : nat) (h : Hal S C) :
  isGlobalProp (cfgProp cfg) = false ->
  (k + m = length (areaConfigs cfg))%nat ->
  exists h',
    for_each (seq k m) (onCreate_area cfg) h = Done (tt, h')
    /\ mVehicleClient h' = mVehicleClient h
    /\ writes_of (trace h') =
         writes_of (trace h) ++
         List.map (fun ac => (placeholder (cfgProp cfg) (cfgAreaId ac), true))
                  (drop k (areaConfigs cfg)).
Proof.
  intros Hglobal. revert k h.
  induction m as [| m IH]; intros k h Hlen.
  - exists h. split; [reflexivity |]. split; [reflexivity |].
    rewrite drop_ge by lia. cbn. symmetry. apply app_nil_r.
  - cbn [seq for_each]. unfold bind at 1.
    assert (Hk : (k < length (areaConfigs cfg))%nat) by lia.
    destruct (lookup_lt_is_Some_2 _ _ Hk) as [ac Hac].
    rewrite (onCreate_area_run cfg k ac h Hglobal Hac).
    match goal with
    | |- context [ for_each _ _ ?h0 ] =>
        destruct (IH (Datatypes.S k) h0 ltac:(lia)) as (h' & Hrun & Hcl & Hwrites)
    end.
    exists h'. split; [exact Hrun |]. split; [exact Hcl |].
    rewrite Hwrites. cbn [trace]. rewrite writes_of_app.
    rewrite (drop_S _ _ _ Hac). cbn. rewrite <- app_assoc. reflexivity.
Qed.

(** For an area-scoped property the loop writes one UNAVAILABLE placeholder
    per declared area config, with [updateStatus = true]. *)
Lemma onCreate_config_areas (cfg : VehiclePropConfig) (h : Hal S C) :
  isGlobalProp (cfgProp cfg) = false ->
  size (areaConfigs cfg) < 2 ^ 31 ->
  exists h',
    onCreate_config cfg h = Done (tt, h')
    /\ mVehicleClient h' = mVehicleClient h
    /\ writes_of (trace h') =
         writes_of (trace h) ++
         List.map (fun ac => (placeholder (cfgProp cfg) (cfgAreaId ac), true))
                  (areaConfigs cfg).
Proof.
  intros Hglobal Hsize. unfold onCreate_config. rewrite Hglobal.
  rewrite to_int32_small by (pose proof (size_nonneg (areaConfigs cfg)); lia).
  unfold size. rewrite Nat2Z.id.
  apply (onCreate_areas_from cfg (length (areaConfigs cfg)) 0 h Hglobal).
  reflexivity.
Qed.

Lemma onCreate_configs (cfgs : list VehiclePropConfig) (h : Hal S C) :
  Forall (fun cfg => size (areaConfigs cfg) < 2 ^ 31) cfgs ->
  exists h',
    for_each cfgs onCreate_config h = Done (tt, h')
    /\ mVehicleClient h' = mVehicleClient h
    /\ writes_of (trace h') = writes_of (trace h) ++ written_placeholders cfgs.
Proof.
  intros Hsmall. revert h.
  induction Hsmall as [| cfg cfgs Hcfg _ IH]; intros h.
  - exists h. split; [reflexivity |]. split; [reflexivity |].
    cbn. symmetry. apply app_nil_r.
  - cbn [for_each]. unfold bind at 1.
    destruct (isGlobalProp (cfgProp cfg)) eqn:Hglobal.
    + rewrite (onCreate_config_global cfg h Hglobal).
      destruct (IH h) as (h' & Hrun & Hcl & Hwrites).
      exists h'. split; [exact Hrun |]. split; [exact Hcl |].
      rewrite Hwrites. unfold written_placeholders. cbn [flat_map].
      rewrite Hglobal. reflexivity.
    + destruct (onCreate_config_areas cfg h Hglobal Hcfg) as (h1 & Hrun1 & Hcl1 & Hw1).
      rewrite Hrun1.
      destruct (IH h1) as (h' & Hrun & Hcl & Hwrites).
      exists h'. split; [exact Hrun |]. split; [congruence |].
      rewrite Hwrites, Hw1. unfold written_placeholders. cbn [flat_map].
      rewrite Hglobal, <- app_assoc. reflexivity.
Qed.

(** [onCreate] as a whole: the placeholders it hands to [writeValue] are
    those of the area-scoped schemas only. *)
Lemma onCreate_writes (h : Hal S C) :
  Forall (fun cfg => size (areaConfigs cfg) < 2 ^ 31)
         (getAllPropertyConfig (mVehicleClient h)) ->
  exists h',
    onCreate h = Done (tt, h')
    /\ writes_of (trace h') =
         writes_of (trace h) ++
         written_placeholders (getAllPropertyConfig (mVehicleClient h)).
Proof.
  intros Hsmall. unfold onCreate, bind at 1, client_getAllPropertyConfig.
  unfold bind at 1.
  destruct (onCreate_configs _ (record ClientGetAllPropertyConfig h) Hsmall)
    as (h1 & Hrun & Hcl & Hwrites).
  rewrite Hrun. unfold bind, client_triggerSendAllValues, registerHeartBeatEvent,
    timer_registerRecurrentEvent, record.
  eexists. split; [reflexivity |].
  cbn [trace]. rewrite !writes_of_app, Hwrites.
  unfold record. cbn [trace]. rewrite writes_of_app. cbn.
  rewrite !app_nil_r. reflexivity.
Qed.

End Initialization.

(** C1: [onCreate] on a discovery result with one global schema
    (NIGHT_MODE) and one area-scoped schema with two area configs
    (HVAC_FAN_SPEED, areas 1 and 4).  Three (property, area) pairs are
    implied; only the two of the area-scoped property are written, because
    [numAreas] is 0 for the global one. *)
Theorem onCreate_skips_global_property :
  exists h',
    onCreate (utils := Sample.utils) (store := Sample.store) (client := Sample.client)
      (Sample.hal [Sample.nightModeConfig; Sample.fanConfig] [])
    = Done (tt, h')
    /\ writes_of (trace h') =
         [(placeholder Sample.HVAC_FAN_SPEED 1, true);
          (placeholder Sample.HVAC_FAN_SPEED 4, true)]
    /\ implied_placeholders (utils := Sample.utils)
         [Sample.nightModeConfig; Sample.fanConfig] =
         [(placeholder Sample.NIGHT_MODE_INT 0, true);
          (placeholder Sample.HVAC_FAN_SPEED 1, true);
          (placeholder Sample.HVAC_FAN_SPEED 4, true)].
Proof.
  eexists. split; [vm_compute; reflexivity |].
  split; vm_compute; reflexivity.
Qed.

(* ===================================================================== *)
(** * The statements on concrete inputs *)
(* ===================================================================== *)

(** An INT32 value with one element passes the arity check. *)
Lemma checkPropValue_arity_witness :
  (getPropType (VehicleUtils := Sample.utils) (prop (Sample.fanValue 1 AVAILABLE 3)) = BOOLEAN
   \/ getPropType (VehicleUtils := Sample.utils) (prop (Sample.fanValue 1 AVAILABLE 3)) = INT32)
  /\ checkPropValue (utils := Sample.utils) (Sample.fanValue 1 AVAILABLE 3) Sample.fanConfig
     = Done OK.
Proof.
  split; [right; reflexivity |].
  exact (proj1 (checkPropValue_arity (utils := Sample.utils)
                  (Sample.fanValue 1 AVAILABLE 3) Sample.fanConfig)
               (or_intror eq_refl)).
Defined.

(** C5 as stated fails when a has-value flag is neither 0 nor 1: with
    [configArray[1] = 2] and an empty payload the code counts no int32 and
    returns OK, while counting every nonzero flag expects one int32. *)
Lemma checkVendorMixedPropValue_flag_two :
  checkVendorMixedPropValue
    (Sample.emptyValue Sample.VENDOR_MIXED 0 AVAILABLE)
    Sample.flagTwoLayout = Done OK
  /\ mixed_mismatch flag_nonzero
       (Sample.emptyValue Sample.VENDOR_MIXED 0 AVAILABLE)
       Sample.flagTwoLayout.
Proof.
  split; [reflexivity |].
  left. vm_compute. discriminate.
Qed.

(** A layout of one int and an int array of length 2 rejects a payload of
    a single int32. *)
Lemma checkVendorMixedPropValue_iff_witness :
  wf_value (Sample.int32Value Sample.VENDOR_MIXED 0 AVAILABLE 7)
  /\ wf_configArray Sample.intArrayLayout
  /\ (9 <= length (configArray Sample.intArrayLayout))%nat
  /\ checkVendorMixedPropValue (Sample.int32Value Sample.VENDOR_MIXED 0 AVAILABLE 7)
       Sample.intArrayLayout = Done INVALID_ARG.
Proof.
  assert (W : wf_value (Sample.int32Value Sample.VENDOR_MIXED 0 AVAILABLE 7))
    by (split; vm_compute; discriminate).
  assert (A : wf_configArray Sample.intArrayLayout)
    by (repeat constructor; vm_compute; discriminate).
  assert (L : (9 <= length (configArray
                              Sample.intArrayLayout))%nat)
    by (vm_compute; lia).
  split; [exact W |]. split; [exact A |]. split; [exact L |].
  apply (proj1 (checkVendorMixedPropValue_iff _ _ W A L)).
  left. vm_compute. discriminate.
Defined.

(** C10 as stated fails on a [configArray] of four entries when the int32
    check already rejects: positions 1 to 3 are read, the lengths differ and
    the function returns INVALID_ARG without reading position 4. *)
Lemma checkVendorMixedPropValue_short_array_rejects :
  (length (configArray Sample.shortLayout) < 9)%nat
  /\ checkVendorMixedPropValue
       (Sample.int32Value Sample.VENDOR_MIXED 0 AVAILABLE 7)
       Sample.shortLayout = Done INVALID_ARG.
Proof.
  split; [vm_compute; lia | reflexivity].
Qed.

(** A [configArray] of four zero entries and an empty payload: the int32
    check passes and position 4 is read out of bounds. *)
Lemma checkVendorMixedPropValue_bounds_witness :
  (4 <= length (configArray Sample.shortLayout) < 9)%nat
  /\ wf_value (Sample.emptyValue Sample.VENDOR_MIXED 0 AVAILABLE)
  /\ wf_configArray Sample.shortLayout
  /\ ~ early_mismatch (Sample.emptyValue Sample.VENDOR_MIXED 0 AVAILABLE)
        Sample.shortLayout
  /\ checkVendorMixedPropValue
       (Sample.emptyValue Sample.VENDOR_MIXED 0 AVAILABLE)
       Sample.shortLayout = Undefined OutOfBounds.
Proof.
  assert (L : (4 <= length (configArray Sample.shortLayout) < 9)%nat)
    by (vm_compute; lia).
  assert (W : wf_value (Sample.emptyValue Sample.VENDOR_MIXED 0 AVAILABLE))
    by (split; vm_compute; discriminate).
  assert (A : wf_configArray Sample.shortLayout)
    by (repeat constructor; vm_compute; discriminate).
  assert (N : ~ early_mismatch (Sample.emptyValue Sample.VENDOR_MIXED 0 AVAILABLE)
                Sample.shortLayout).
  { unfold early_mismatch. cbn. intros [[_ Hm] | [[Hn _] | [Hn _]]].
    - apply Hm. reflexivity.
    - lia.
    - lia. }
  split; [exact L |]. split; [exact W |]. split; [exact A |]. split; [exact N |].
  exact (proj2 (proj2 (proj2 (checkVendorMixedPropValue_bounds
                                (Sample.emptyValue Sample.VENDOR_MIXED 0 AVAILABLE)
                                Sample.shortLayout)) L W A) N).
Defined.

(** Reading a placeholder stored with timestamp 5 when the clock reads
    3000000: TRY_AGAIN, and the returned timestamp is 3000000. *)
Lemma get_lookup_witness :
  readValueOrNull (mPropStore Sample.fanLater) (Sample.fanValue 1 AVAILABLE 0)
    = Some Sample.staleFan
  /\ status Sample.staleFan <> AVAILABLE
  /\ exists h' v,
       get (Sample.fanValue 1 AVAILABLE 0) Sample.fanLater
       = Done ((Some v, TRY_AGAIN), h')
       /\ restamped 3000000 Sample.staleFan v
       /\ mPropStore h' = mPropStore Sample.fanLater.
Proof.
  assert (R : readValueOrNull (mPropStore Sample.fanLater)
                (Sample.fanValue 1 AVAILABLE 0)
              = Some Sample.staleFan)
    by (vm_compute; reflexivity).
  assert (U : status Sample.staleFan <> AVAILABLE)
    by (vm_compute; discriminate).
  split; [exact R |]. split; [exact U |].
  exact (proj2 (proj2 (get_lookup (clock := Sample.clock) (store := Sample.store)
                         (Sample.fanValue 1 AVAILABLE 0) Sample.fanLater))
               _ R U).
Defined.

(** Setting a property whose stored value is still UNAVAILABLE. *)
Lemma set_rejects_without_forwarding_witness :
  set_rejects (utils := Sample.utils) (store := Sample.store)
    Sample.fanPending (Sample.fanValue 1 AVAILABLE 3) NOT_AVAILABLE
    [StoreGetConfigOrNull (prop (Sample.fanValue 1 AVAILABLE 3));
     StoreReadValueOrNull (Sample.fanValue 1 AVAILABLE 3)]
  /\ exists h',
       set (utils := Sample.utils) (store := Sample.store) (client := Sample.client)
           (Sample.fanValue 1 AVAILABLE 3) Sample.fanPending
       = Done (NOT_AVAILABLE, h')
       /\ calls_between Sample.fanPending h'
            [StoreGetConfigOrNull (prop (Sample.fanValue 1 AVAILABLE 3));
             StoreReadValueOrNull (Sample.fanValue 1 AVAILABLE 3)]
       /\ forallb (fun c => negb (is_setProperty c))
            [StoreGetConfigOrNull (prop (Sample.fanValue 1 AVAILABLE 3));
             StoreReadValueOrNull (Sample.fanValue 1 AVAILABLE 3)] = true
       /\ mVehicleClient h' = mVehicleClient Sample.fanPending.
Proof.
  assert (R : set_rejects (utils := Sample.utils) (store := Sample.store)
                Sample.fanPending (Sample.fanValue 1 AVAILABLE 3) NOT_AVAILABLE
                [StoreGetConfigOrNull (prop (Sample.fanValue 1 AVAILABLE 3));
                 StoreReadValueOrNull (Sample.fanValue 1 AVAILABLE 3)]).
  { apply (reject_not_available _ _ Sample.fanConfig (Sample.fanValue 1 UNAVAILABLE 0));
      vm_compute; (reflexivity || discriminate). }
  split; [exact R |].
  exact (set_rejects_without_forwarding (utils := Sample.utils)
           (store := Sample.store) (client := Sample.client) _ _ _ _ R).
Defined.

(** A [set] that is forwarded to the client. *)
Lemma set_store_frame_witness :
  exists h',
    set (utils := Sample.utils) (store := Sample.store) (client := Sample.client)
        (Sample.fanValue 1 AVAILABLE 3) Sample.fanReady
    = Done (OK, h')
    /\ mPropStore h' = mPropStore Sample.fanReady
    /\ exists delta, calls_between Sample.fanReady h' delta
         /\ forallb (fun c => negb (is_store_write c)) delta = true.
Proof.
  eexists. split; [vm_compute; reflexivity |].
  apply (proj1 (set_store_frame (utils := Sample.utils) (store := Sample.store)
                  (client := Sample.client)
                  Sample.fanReady (Sample.fanValue 1 AVAILABLE 3)) OK).
  vm_compute; reflexivity.
Defined.

(** Subscribing at a rate equal to the lower bound. *)
Lemma subscribe_rate_check_witness :
  getConfigOrNull (mPropStore Sample.speedReady) 0x11600207 = Some Sample.speedConfig
  /\ changeMode Sample.speedConfig = CONTINUOUS
  /\ is_nan Sample.f1 = false
  /\ is_nan (minSampleRate Sample.speedConfig) = false
  /\ is_nan (maxSampleRate Sample.speedConfig) = false
  /\ within_sample_range Sample.f1 Sample.speedConfig
  /\ exists h',
       subscribe (utils := Sample.utils) (store := Sample.store)
         0x11600207 Sample.f1 Sample.speedReady = Done (OK, h')
       /\ calls_between Sample.speedReady h'
            [StoreGetConfigOrNull 0x11600207; StoreGetConfigOrNull 0x11600207;
             TimerRegisterRecurrentEvent
               (hertzToNanoseconds (VehicleUtils := Sample.utils) Sample.f1) 0x11600207].
Proof.
  assert (G : getConfigOrNull (mPropStore Sample.speedReady) 0x11600207
              = Some Sample.speedConfig) by (vm_compute; reflexivity).
  assert (W : within_sample_range Sample.f1 Sample.speedConfig)
    by (split; vm_compute; reflexivity).
  split; [exact G |]. do 4 (split; [reflexivity |]). split; [exact W |].
  exact (proj1 (proj2 (subscribe_rate_check (utils := Sample.utils)
                         (store := Sample.store)
                         0x11600207 Sample.f1 Sample.speedReady)
                      Sample.speedConfig G eq_refl eq_refl eq_refl eq_refl) W).
Defined.

(** C8 as stated fails when the store holds a CONTINUOUS schema for the
    heartbeat id: that id then takes the path of the continuous properties,
    and although the canary value is stored no heartbeat is emitted. *)
Lemma heartbeat_skipped_when_continuous :
  readValueOrNull (mPropStore Sample.heartbeatContinuous) canary <> None
  /\ exists h',
       onContinuousPropertyTimer [VHAL_HEARTBEAT] Sample.heartbeatContinuous
       = Done (tt, h')
       /\ events_of (trace h') = [].
Proof.
  split; [vm_compute; discriminate |].
  eexists. split; vm_compute; reflexivity.
Qed.

(** A tick with the speed property and the heartbeat id, the speed being
    stored. *)
Lemma heartbeat_on_tick_witness :
  ~ continuous_in (mPropStore Sample.speedReady)
      (VHAL_HEARTBEAT (VehicleUtils := Sample.utils))
  /\ exists h1 h2,
       onContinuousPropertyTimer (utils := Sample.utils) (clock := Sample.clock)
         (store := Sample.store) [0x11600207] Sample.speedReady = Done (tt, h1)
       /\ onTimerProperty (utils := Sample.utils) (clock := Sample.clock)
            (store := Sample.store) 0x11500f33 h1 = Done (tt, h2)
       /\ events_of (trace h2) =
            events_of (trace h1) ++
            [heartbeat (utils := Sample.utils)
               (uptimeMillis_at (SystemClock := Sample.clock) (clockReads h1))
               (elapsedRealtimeNano_at (SystemClock := Sample.clock)
                  (Datatypes.S (clockReads h1)))].
Proof.
  assert (N : ~ continuous_in (mPropStore Sample.speedReady)
                (VHAL_HEARTBEAT (VehicleUtils := Sample.utils))).
  { intros (cfg & Hcfg & _). vm_compute in Hcfg. discriminate Hcfg. }
  split; [exact N |].
  destruct (heartbeat_on_tick (utils := Sample.utils) (clock := Sample.clock)
              (store := Sample.store)
              [0x11600207] [] Sample.speedReady N)
    as (h1 & h2 & Hbefore & Hhb & _ & Hemit & _).
  exists h1, h2. split; [exact Hbefore |]. split; [exact Hhb |].
  apply Hemit. vm_compute. discriminate.
Defined.

(* ===================================================================== *)
(** * The end-to-end scenarios of the specification *)
(* ===================================================================== *)

(** Scenario A on the fan property: after [onCreate] the placeholder answers
    TRY_AGAIN; after the hardware pushes 2/AVAILABLE (with its status),
    [get] answers OK with that payload and the timestamp of the call. *)
Example scenario_get_after_push :
  exists h1 h2 h3 v,
    onCreate (Sample.hal [Sample.fanConfig] []) = Done (tt, h1)
    /\ (exists h1' v', get (Sample.fanValue 1 AVAILABLE 0) h1
                       = Done ((Some v', TRY_AGAIN), h1'))
    /\ onPropertyValue (Sample.fanValue 1 AVAILABLE 2) true h1 = Done (tt, h2)
    /\ get (Sample.fanValue 1 AVAILABLE 0) h2 = Done ((Some v, OK), h3)
    /\ int32Values (value v) = [2]
    /\ timestamp v = elapsedRealtimeNano_at (clockReads h2).
Proof.
  do 4 eexists. split; [vm_compute; reflexivity |].
  split; [do 2 eexists; vm_compute; reflexivity |].
  split; [vm_compute; reflexivity |].
  split; [vm_compute; reflexivity |].
  split; reflexivity.
Qed.

(** Scenario B: a value above the upper bound of its area is refused and
    nothing is forwarded. *)
Example scenario_set_out_of_range :
  exists h',
    set (Sample.fanValue 1 AVAILABLE 150) Sample.fanReady = Done (INVALID_ARG, h')
    /\ mVehicleClient h' = mVehicleClient Sample.fanReady.
Proof. eexists. split; vm_compute; reflexivity. Qed.

(** Scenario C: bounds 1.0 and 10.0; a rate of 5.0 is accepted, a rate of
    20.0 refused, and unsubscribing twice answers OK twice. *)
Example scenario_subscribe :
  exists h1 h2 h3 h4,
    subscribe 0x11600207 Sample.f5 Sample.speedReady = Done (OK, h1)
    /\ subscribe 0x11600207 Sample.f20 h1 = Done (INVALID_ARG, h2)
    /\ List.filter is_timer_register (trace h2)
       = [TimerRegisterRecurrentEvent (hertzToNanoseconds Sample.f5) 0x11600207]
    /\ unsubscribe 0x11600207 h2 = Done (OK, h3)
    /\ unsubscribe 0x11600207 h3 = Done (OK, h4).
Proof.
  do 4 eexists. repeat split; vm_compute; reflexivity.
Qed.

(** Scenario D: without a stored speed the heartbeat tick emits nothing;
    with one it emits a heartbeat. *)
Example scenario_heartbeat :
  (exists h', onContinuousPropertyTimer [VHAL_HEARTBEAT] (Sample.hal [] [])
              = Done (tt, h')
              /\ events_of (trace h') = [])
  /\ (exists h', onContinuousPropertyTimer [VHAL_HEARTBEAT] Sample.speedReady
                 = Done (tt, h')
                 /\ events_of (trace h') = [heartbeat 0 1000000]).
Proof.
  split; eexists; split; vm_compute; reflexivity.
Qed.

(* ===================================================================== *)
(** * Further properties: range checking *)
(* ===================================================================== *)

Section RangeCoverage.
Context {utils : VehicleUtils}.

Lemma find_first_match {A : Type} (f : A -> bool) (before after : list A) (x : A) :
  Forall (fun c => f c = false) before -> f x = true ->
  List.find f (before ++ x :: after) = Some x.
Proof.
  intros Hbefore Hx. induction Hbefore as [| c before Hc _ IH].
  - cbn. rewrite Hx. reflexivity.
  - cbn. rewrite Hc. exact IH.
Qed.

(** With the area resolved, [checkValueRange] is the [switch] on that area
    config. *)
Lemma checked_against_resolves (v : VehiclePropValue) (cfg : VehiclePropConfig)
    (ac : VehicleAreaConfig) :
  checked_against v cfg ac ->
  checkValueRange v cfg = checkAreaRange (getPropType (prop v)) v (Some ac).
Proof.
  intros [rest Hglobal Hareas | before after Hglobal Hareas Hbefore Hac];
    unfold checkValueRange; rewrite Hglobal.
  - rewrite Hareas. reflexivity.
  - unfold findAreaConfig. rewrite Hareas.
    rewrite (find_first_match _ before after ac); [reflexivity | |].
    + eapply Forall_impl; [exact Hbefore |].
      intros c Hc. cbn beta in Hc |- *. rewrite Hc. reflexivity.
    + apply negb_true_iff, Z.eqb_neq. exact Hac.
Qed.

Lemma size_cons_positive {A : Type} (x : A) (l : list A) : (size (x :: l) >? 0) = true.
Proof. unfold size. cbn [length]. apply Z.gtb_lt. lia. Qed.

(** X1: a bound pair of zero and zero means no bound: for the three scalar
    numeric types [checkValueRange] answers OK whatever the payload is, even
    an empty one. *)
Theorem checkValueRange_zero_bounds (v : VehiclePropValue) (cfg : VehiclePropConfig)
    (ac : VehicleAreaConfig) :
  checked_against v cfg ac ->
  (getPropType (prop v) = INT32 ->
     minInt32Value ac = 0 -> maxInt32Value ac = 0 -> checkValueRange v cfg = Done OK)
  /\ (getPropType (prop v) = INT64 ->
     minInt64Value ac = 0 -> maxInt64Value ac = 0 -> checkValueRange v cfg = Done OK)
  /\ (getPropType (prop v) = FLOAT ->
     feq (minFloatValue ac) fzero = true -> feq (maxFloatValue ac) fzero = true ->
     checkValueRange v cfg = Done OK).
Proof.
  intros Hres. rewrite (checked_against_resolves v cfg ac Hres).
  repeat split; intros -> Hmin Hmax; cbn [checkAreaRange deref rbind];
    rewrite Hmin, Hmax; reflexivity.
Qed.

(** X2: for INT32 and INT64 with a bound pair other than zero and zero, the
    first element of the payload decides: OK when it lies within
    [[min, max]], bounds included, INVALID_ARG otherwise. *)
Theorem checkValueRange_int_bounds (v : VehiclePropValue) (cfg : VehiclePropConfig)
    (ac : VehicleAreaConfig) (x : Z) (rest : list Z) :
  checked_against v cfg ac ->
  (getPropType (prop v) = INT32 ->
     int32Values (value v) = x :: rest ->
     ~ (minInt32Value ac = 0 /\ maxInt32Value ac = 0) ->
     checkValueRange v cfg =
       Done (if decide (minInt32Value ac <= x <= maxInt32Value ac)
             then OK else INVALID_ARG))
  /\ (getPropType (prop v) = INT64 ->
     int64Values (value v) = x :: rest ->
     ~ (minInt64Value ac = 0 /\ maxInt64Value ac = 0) ->
     checkValueRange v cfg =
       Done (if decide (minInt64Value ac <= x <= maxInt64Value ac)
             then OK else INVALID_ARG)).
Proof.
  intros Hres. rewrite (checked_against_resolves v cfg ac Hres).
  split; intros -> Hpayload Hbounds; cbn [checkAreaRange deref rbind];
    rewrite Hpayload, size_cons_positive;
    cbn [assert rbind at_index lookup list_lookup].
  - destruct (Z.eqb_spec (minInt32Value ac) 0), (Z.eqb_spec (maxInt32Value ac) 0);
      cbn [andb]; try (exfalso; apply Hbounds; split; assumption);
      case_decide; case_bool; try reflexivity; lia.
  - destruct (Z.eqb_spec (minInt64Value ac) 0), (Z.eqb_spec (maxInt64Value ac) 0);
      cbn [andb]; try (exfalso; apply Hbounds; split; assumption);
      case_decide; case_bool; try reflexivity; lia.
Qed.

(** X3: for FLOAT with a bound pair other than zero and zero, and a value
    and bounds that are not NaN, the first element decides in the same
    way. *)
Theorem checkValueRange_float_bounds (v : VehiclePropValue) (cfg : VehiclePropConfig)
    (ac : VehicleAreaConfig) (x : float) (rest : list float) :
  checked_against v cfg ac ->
  getPropType (prop v) = FLOAT ->
  floatValues (value v) = x :: rest ->
  feq (minFloatValue ac) fzero && feq (maxFloatValue ac) fzero = false ->
  is_nan x = false ->
  is_nan (minFloatValue ac) = false ->
  is_nan (maxFloatValue ac) = false ->
  checkValueRange v cfg =
    Done (if fle (minFloatValue ac) x && fle x (maxFloatValue ac)
          then OK else INVALID_ARG).
Proof.
  intros Hres Hty Hpayload Hbounds Hx Hmin Hmax.
  rewrite (checked_against_resolves v cfg ac Hres), Hty.
  cbn [checkAreaRange deref rbind].
  rewrite Hbounds, Hpayload, size_cons_positive.
  cbn [assert rbind at_index lookup list_lookup].
  unfold fgt. fold (flt (maxFloatValue ac) x).
  rewrite (flt_negb_fle x (minFloatValue ac) Hx Hmin).
  rewrite (flt_negb_fle (maxFloatValue ac) x Hmax Hx).
  destruct (fle (minFloatValue ac) x), (fle x (maxFloatValue ac)); reflexivity.
Qed.

(** X4: a FLOAT value whose first element is NaN passes the range check
    whatever the bounds are: both comparisons are false on NaN. *)
Theorem checkValueRange_nan_passes (v : VehiclePropValue) (cfg : VehiclePropConfig)
    (ac : VehicleAreaConfig) (rest : list float) :
  checked_against v cfg ac ->
  getPropType (prop v) = FLOAT ->
  floatValues (value v) = S754_nan :: rest ->
  checkValueRange v cfg = Done OK.
Proof.
  intros Hres Hty Hpayload.
  rewrite (checked_against_resolves v cfg ac Hres), Hty.
  cbn [checkAreaRange deref rbind].
  case_bool; [reflexivity |].
  rewrite Hpayload, size_cons_positive.
  cbn [assert rbind at_index lookup list_lookup].
  unfold fgt. rewrite flt_nan_l, flt_nan_r. reflexivity.
Qed.

(** X5: with a bound pair other than zero and zero and an empty payload, the
    assertion that [checkPropValue] ran before fails. *)
Theorem checkValueRange_empty_payload (v : VehiclePropValue) (cfg : VehiclePropConfig)
    (ac : VehicleAreaConfig) :
  checked_against v cfg ac ->
  (getPropType (prop v) = INT32 ->
     int32Values (value v) = [] ->
     ~ (minInt32Value ac = 0 /\ maxInt32Value ac = 0) ->
     checkValueRange v cfg = Undefined AssertionFailure)
  /\ (getPropType (prop v) = INT64 ->
     int64Values (value v) = [] ->
     ~ (minInt64Value ac = 0 /\ maxInt64Value ac = 0) ->
     checkValueRange v cfg = Undefined AssertionFailure).
Proof.
  intros Hres. rewrite (checked_against_resolves v cfg ac Hres).
  split; intros -> Hpayload Hbounds; cbn [checkAreaRange deref rbind];
    rewrite Hpayload.
  - destruct (Z.eqb_spec (minInt32Value ac) 0), (Z.eqb_spec (maxInt32Value ac) 0);
      cbn [andb]; try (exfalso; apply Hbounds; split; assumption); reflexivity.
  - destruct (Z.eqb_spec (minInt64Value ac) 0), (Z.eqb_spec (maxInt64Value ac) 0);
      cbn [andb]; try (exfalso; apply Hbounds; split; assumption); reflexivity.
Qed.

(** X6: only the area config the value is checked against matters: the
    configs declared after it, and the ones before it that share no bit with
    the value's area, can be dropped without changing the answer. *)
Theorem checkValueRange_first_match (v : VehiclePropValue) (cfg : VehiclePropConfig)
    (ac : VehicleAreaConfig) :
  checked_against v cfg ac ->
  checkValueRange v cfg = checkValueRange v (with_areaConfigs [ac] cfg).
Proof.
  intros Hres. rewrite (checked_against_resolves v cfg ac Hres).
  symmetry. apply checked_against_resolves.
  destruct Hres as [rest Hglobal Hareas | before after Hglobal Hareas Hbefore Hac].
  - apply (against_first _ _ _ [] Hglobal). reflexivity.
  - apply (against_matching _ _ _ [] [] Hglobal); [reflexivity | constructor | exact Hac].
Qed.

(** X7: the two validation functions answer OK or INVALID_ARG whenever they
    answer; no other status code comes out of them. *)
Theorem validation_codes (v : VehiclePropValue) (cfg : VehiclePropConfig)
    (st : StatusCode) :
  checkPropValue v cfg = Done st \/ checkValueRange v cfg = Done st ->
  st = OK \/ st = INVALID_ARG.
Proof.
  intros [Hst | Hst].
  - exact (checkPropValue_codes v cfg st Hst).
  - exact (checkValueRange_codes v cfg st Hst).
Qed.

End RangeCoverage.

(* ===================================================================== *)
(** * Further properties: the write path *)
(* ===================================================================== *)

Section SetCoverage.
Context {utils : VehicleUtils} {clock : SystemClock}.
Context {S C : Type} {store : VehiclePropertyStore S} {client : VehicleHalClient C}.

(** X8: whatever [set] returns, the calls it made are one of four shapes:
    none, the schema lookup, the schema lookup and the read of the stored
    value, or both followed by a single [setProperty] that carries the value
    as given with [updateStatus = false].  It reads no clock and emits no
    event. *)
Theorem set_calls (h : Hal S C) (v : VehiclePropValue) (r : StatusCode) (h' : Hal S C) :
  set v h = Done (r, h') ->
  exists delta,
    calls_between h h' delta
    /\ In delta (set_call_shapes v)
    /\ clockReads h' = clockReads h.
Proof.
  unfold set, set_call_shapes.
  case_bool.
  { exec. intros [= <- <-]. exists []. split; [| split; [left |]; reflexivity].
    unfold calls_between. symmetry. apply app_nil_r. }
  run.
  destruct (getConfigOrNull (mPropStore h) (prop v)) as [cfg |].
  2:{ intros [= <- <-]. eexists. split; [reflexivity |].
      split; [right; left |]; reflexivity. }
  destruct (checkPropValue v cfg) as [st1 | f1]; [| discriminate].
  step. case_bool.
  { intros [= <- <-]. eexists. split; [reflexivity |].
    split; [right; left |]; reflexivity. }
  destruct (checkValueRange v cfg) as [st2 | f2]; [| discriminate].
  step. case_bool.
  { intros [= <- <-]. eexists. split; [reflexivity |].
    split; [right; left |]; reflexivity. }
  case_bool.
  { intros [= <- <-].
    exists [StoreGetConfigOrNull (prop v); StoreReadValueOrNull v].
    split; [| split; [right; right; left |]; reflexivity].
    unfold calls_between, record. cbn [trace]. rewrite <- app_assoc. reflexivity. }
  exec. destruct (setProperty (mVehicleClient h) v false) as [c' st].
  intros [= <- <-].
  exists [StoreGetConfigOrNull (prop v); StoreReadValueOrNull v;
          ClientSetProperty v false].
  split; [| split; [right; right; right; left |]; reflexivity].
  unfold calls_between. cbn [trace]. rewrite <- !app_assoc. reflexivity.
Qed.

(** X9: an INT32 value outside the bounds of the area config it is checked
    against is refused with INVALID_ARG right after the schema lookup: the
    stored value is not read and nothing is forwarded. *)
Theorem set_out_of_range (h : Hal S C) (v : VehiclePropValue) (cfg : VehiclePropConfig)
    (ac : VehicleAreaConfig) (x : Z) :
  status v = AVAILABLE ->
  getConfigOrNull (mPropStore h) (prop v) = Some cfg ->
  getPropType (prop v) = INT32 ->
  int32Values (value v) = [x] ->
  checked_against v cfg ac ->
  ~ (minInt32Value ac = 0 /\ maxInt32Value ac = 0) ->
  x < minInt32Value ac \/ maxInt32Value ac < x ->
  set v h = Done (INVALID_ARG, record (StoreGetConfigOrNull (prop v)) h).
Proof.
  intros Hst Hcfg Hty Hpayload Hres Hbounds Hout.
  assert (Hchk : checkPropValue v cfg = Done OK)
    by (unfold checkPropValue; rewrite Hty, Hpayload; reflexivity).
  assert (Hrng : checkValueRange v cfg = Done INVALID_ARG).
  { rewrite (checked_against_resolves v cfg ac Hres), Hty.
    cbn [checkAreaRange deref rbind].
    rewrite Hpayload, size_cons_positive.
    cbn [assert rbind at_index lookup list_lookup].
    destruct (Z.eqb_spec (minInt32Value ac) 0), (Z.eqb_spec (maxInt32Value ac) 0);
      cbn [andb]; try (exfalso; apply Hbounds; split; assumption);
      case_bool; try reflexivity; lia. }
  unfold set. exec. rewrite Hcfg, Hchk. exec. rewrite Hrng. exec. reflexivity.
Qed.

End SetCoverage.

(* ===================================================================== *)
(** * Further properties: subscription *)
(* ===================================================================== *)

Section SubscriptionCoverage.
Context {utils : VehicleUtils} {clock : SystemClock}.
Context {S C : Type} {store : VehiclePropertyStore S} {client : VehicleHalClient C}.

Lemma continuous_in_dec (s : S) (p : Z) : continuous_in s p \/ ~ continuous_in s p.
Proof.
  unfold continuous_in.
  destruct (getConfigOrNull s p) as [cfg |]; [| right; intros (c & Hc & _); discriminate].
  destruct (decide (changeMode cfg = CONTINUOUS)) as [Hmode | Hmode].
  - left. eauto.
  - right. intros (c & [= <-] & Hc). contradiction.
Qed.

(** X10: [subscribe] always returns: the schema pointer it dereferences
    without a null check is never null, because the CONTINUOUS test just
    before found the schema.  It answers OK or INVALID_ARG and leaves the
    store and the client as they were. *)
Theorem subscribe_returns (p : Z) (rate : float) (h : Hal S C) :
  exists st h',
    subscribe p rate h = Done (st, h')
    /\ (st = OK \/ st = INVALID_ARG)
    /\ mPropStore h' = mPropStore h
    /\ mVehicleClient h' = mVehicleClient h.
Proof.
  destruct (continuous_in_dec (mPropStore h) p) as [(cfg & Hcfg & Hmode) | Hnc].
  - rewrite (subscribe_continuous p rate h cfg Hcfg Hmode).
    case_bool; eexists _, _; (split; [reflexivity |]); auto.
  - rewrite (subscribe_not_continuous p rate h Hnc).
    eexists _, _. split; [reflexivity |]. auto.
Qed.

(** X11: [unsubscribe] answers INVALID_ARG, without a call on the timer,
    when the store has no CONTINUOUS schema for the property; otherwise it
    unregisters the property and answers OK, whether or not the property was
    registered before. *)
Theorem unsubscribe_outcome (p : Z) (h : Hal S C) :
  (~ continuous_in (mPropStore h) p ->
     unsubscribe p h = Done (INVALID_ARG, record (StoreGetConfigOrNull p) h))
  /\ (continuous_in (mPropStore h) p ->
     unsubscribe p h =
       Done (OK, record (TimerUnregisterRecurrentEvent p)
                   (record (StoreGetConfigOrNull p) h))).
Proof.
  split.
  - intros Hnc. unfold unsubscribe, bind at 1.
    rewrite isContinuousProperty_run, (not_continuous_in _ _ Hnc). reflexivity.
  - intros (cfg & Hcfg & Hmode). unfold unsubscribe, bind at 1.
    rewrite isContinuousProperty_run, Hcfg, (bool_decide_true _ Hmode). reflexivity.
Qed.

(** X12: a property that [subscribe] accepted can be unsubscribed: the
    following [unsubscribe] answers OK and unregisters that property. *)
Theorem subscribe_then_unsubscribe (p : Z) (rate : float) (h h1 : Hal S C) :
  subscribe p rate h = Done (OK, h1) ->
  exists h2,
    unsubscribe p h1 = Done (OK, h2)
    /\ calls_between h1 h2 [StoreGetConfigOrNull p; TimerUnregisterRecurrentEvent p].
Proof.
  intros Hsub.
  destruct (continuous_in_dec (mPropStore h) p) as [Hc | Hnc].
  - assert (Hc1 : continuous_in (mPropStore h1) p).
    { destruct Hc as (cfg & Hcfg & Hmode).
      rewrite (subscribe_continuous p rate h cfg Hcfg Hmode) in Hsub.
      destruct (flt rate (minSampleRate cfg) || fgt rate (maxSampleRate cfg));
        [discriminate Hsub |].
      injection Hsub as <-. exists cfg. auto. }
    unfold unsubscribe, bind at 1.
    destruct Hc1 as (cfg & Hcfg & Hmode).
    rewrite isContinuousProperty_run, Hcfg, (bool_decide_true _ Hmode).
    eexists. split; [reflexivity |].
    unfold calls_between, record. cbn [trace]. rewrite <- app_assoc. reflexivity.
  - rewrite (subscribe_not_continuous p rate h Hnc) in Hsub. discriminate Hsub.
Qed.

End SubscriptionCoverage.

(* ===================================================================== *)
(** * Further properties: timer and push dispatch *)
(* ===================================================================== *)

Section DispatchCoverage.
Context {utils : VehicleUtils} {clock : SystemClock}.
Context {S C : Type} {store : VehiclePropertyStore S} {client : VehicleHalClient C}.

(** X13: a due property that the store marks CONTINUOUS is read from the
    store by its id.  A stored value is emitted as an event whose timestamp
    is the clock reading taken then, whatever timestamp was stored, and
    whose other fields are the stored ones; an absent value emits nothing.
    This is also the path taken by the heartbeat id when the store marks it
    CONTINUOUS. *)
Theorem onTimer_continuous (p : Z) (h : Hal S C) :
  continuous_in (mPropStore h) p ->
  exists h',
    onContinuousPropertyTimer [p] h = Done (tt, h')
    /\ (readValueOrNullByProp (mPropStore h) p = None ->
          calls_between h h'
            [StoreGetConfigOrNull p; StoreReadValueOrNullByProp p])
    /\ (forall stored, readValueOrNullByProp (mPropStore h) p = Some stored ->
          exists v,
            calls_between h h'
              [StoreGetConfigOrNull p; StoreReadValueOrNullByProp p; HalEvent v]
            /\ restamped (elapsedRealtimeNano_at (clockReads h)) stored v).
Proof.
  intros (cfg & Hcfg & Hmode).
  unfold onContinuousPropertyTimer. cbn [for_each]. unfold bind at 1.
  unfold onTimerProperty, bind at 1.
  rewrite isContinuousProperty_run, Hcfg, (bool_decide_true _ Hmode).
  unfold bind, store_readValueOrNullByProp. rewrite emit_run.
  cbn [mPropStore record clockReads]. unfold ret.
  eexists. split; [reflexivity |].
  unfold calls_between.
  destruct (readValueOrNullByProp (mPropStore h) p) as [stored0 |];
    unfold obtain, record, tick; cbn [trace]; split.
  - intros Hnone. discriminate Hnone.
  - intros stored [= <-]. eexists. split.
    + rewrite <- !app_assoc. reflexivity.
    + repeat split.
  - intros _. rewrite <- !app_assoc. reflexivity.
  - intros stored Hsome. discriminate Hsome.
Qed.

(** X14: a due id that is neither CONTINUOUS in the store nor the heartbeat
    id is skipped after the schema lookup, and the remaining ids of the tick
    are processed as usual. *)
Theorem onTimer_unexpected (p : Z) (rest : list Z) (h : Hal S C) :
  ~ continuous_in (mPropStore h) p ->
  p <> VHAL_HEARTBEAT ->
  onContinuousPropertyTimer (p :: rest) h
  = onContinuousPropertyTimer rest (record (StoreGetConfigOrNull p) h).
Proof.
  intros Hnc Hne.
  unfold onContinuousPropertyTimer. cbn [for_each]. unfold bind at 1.
  unfold onTimerProperty, bind at 1.
  rewrite isContinuousProperty_run, (not_continuous_in _ _ Hnc).
  rewrite (proj2 (Z.eqb_neq p VHAL_HEARTBEAT) Hne). reflexivity.
Qed.

Lemma onTimerProperty_frame (p : Z) (h : Hal S C) :
  exists h' delta,
    onTimerProperty p h = Done (tt, h')
    /\ calls_between h h' delta
    /\ forallb is_read_or_event delta = true
    /\ (length (events_of delta) <= 1)%nat
    /\ mPropStore h' = mPropStore h
    /\ mVehicleClient h' = mVehicleClient h.
Proof.
  unfold onTimerProperty, bind at 1. rewrite isContinuousProperty_run.
  destruct (match getConfigOrNull (mPropStore h) p with
            | Some cfg => bool_decide (changeMode cfg = CONTINUOUS)
            | None => false
            end).
  - unfold bind, store_readValueOrNullByProp. rewrite emit_run.
    cbn [mPropStore record].
    destruct (readValueOrNullByProp (mPropStore h) p) as [stored |];
      unfold obtain.
    + eexists _, [_; _; _]. split; [reflexivity |].
      split; [unfold calls_between, record, tick; cbn [trace];
              rewrite <- !app_assoc; reflexivity |].
      repeat split. cbn. lia.
    + eexists _, [_; _]. split; [reflexivity |].
      split; [unfold calls_between, record; cbn [trace];
              rewrite <- !app_assoc; reflexivity |].
      repeat split. cbn. lia.
  - destruct (p =? VHAL_HEARTBEAT).
    + unfold bind, doInternalHealthCheck, store_readValueOrNull, bind.
      cbn [mPropStore record].
      destruct (readValueOrNull (mPropStore h) _).
      * unfold createVhalHeartBeatProp, bind, uptimeMillis, ret.
        rewrite emit_run.
        eexists _, [_; _; _]. split; [reflexivity |].
        split; [unfold calls_between, record, tick; cbn [trace];
                rewrite <- !app_assoc; reflexivity |].
        repeat split. cbn. lia.
      * unfold ret. rewrite emit_run.
        eexists _, [_; _]. split; [reflexivity |].
        split; [unfold calls_between, record; cbn [trace];
                rewrite <- !app_assoc; reflexivity |].
        repeat split. cbn. lia.
    + eexists _, [_]. split; [reflexivity |].
      split; [reflexivity |]. repeat split. cbn. lia.
Qed.

(** X15: a timer tick never fails, whatever ids are due.  It only reads the
    store and hands events to the sink: the store and the client are left
    as they were, and at most one event is emitted per due id. *)
Theorem onTimer_frame (properties : list Z) (h : Hal S C) :
  exists h' delta,
    onContinuousPropertyTimer properties h = Done (tt, h')
    /\ calls_between h h' delta
    /\ forallb is_read_or_event delta = true
    /\ (length (events_of delta) <= length properties)%nat
    /\ mPropStore h' = mPropStore h
    /\ mVehicleClient h' = mVehicleClient h.
Proof.
  unfold onContinuousPropertyTimer. revert h.
  induction properties as [| p l IH]; intros h.
  - exists h, []. split; [reflexivity |].
    split; [unfold calls_between; symmetry; apply app_nil_r |].
    repeat split. cbn. lia.
  - cbn [for_each]. unfold bind.
    destruct (onTimerProperty_frame p h)
      as (h1 & d1 & -> & Hc1 & Hr1 & He1 & Hs1 & Hcl1).
    destruct (IH h1) as (h2 & d2 & -> & Hc2 & Hr2 & He2 & Hs2 & Hcl2).
    exists h2, (d1 ++ d2). split; [reflexivity |].
    split; [unfold calls_between in *; rewrite Hc2, Hc1, app_assoc; reflexivity |].
    split; [rewrite forallb_app, Hr1, Hr2; reflexivity |].
    split; [rewrite events_of_app, length_app; cbn [length]; lia |].
    split; congruence.
Qed.

Lemma onTimerProperty_heartbeat_run (h : Hal S C) (stored : VehiclePropValue) :
  ~ continuous_in (mPropStore h) VHAL_HEARTBEAT ->
  readValueOrNull (mPropStore h) canary = Some stored ->
  exists h',
    onContinuousPropertyTimer [VHAL_HEARTBEAT] h = Done (tt, h')
    /\ events_of (trace h') =
         events_of (trace h) ++
         [heartbeat (uptimeMillis_at (clockReads h))
                    (elapsedRealtimeNano_at (Datatypes.S (clockReads h)))]
    /\ clockReads h' = Datatypes.S (Datatypes.S (clockReads h))
    /\ mPropStore h' = mPropStore h.
Proof.
  intros Hnc Hcan.
  unfold onContinuousPropertyTimer. cbn [for_each]. unfold bind at 1.
  unfold onTimerProperty, bind at 1.
  rewrite isContinuousProperty_run, (not_continuous_in _ _ Hnc).
  rewrite Z.eqb_refl.
  unfold bind, doInternalHealthCheck, store_readValueOrNull, bind.
  cbn [mPropStore record]. fold canary. rewrite Hcan.
  unfold createVhalHeartBeatProp, bind, uptimeMillis, ret.
  rewrite emit_run. eexists. split; [reflexivity |].
  unfold record, tick. cbn [trace clockReads mPropStore].
  split; [| split; reflexivity].
  rewrite !events_of_app. cbn. rewrite <- ?app_assoc. cbn. reflexivity.
Qed.

(** X16: with an uptime clock that advances from reading to reading, two
    heartbeat ticks in a row, the canary value being stored, emit two
    heartbeats whose payloads increase strictly. *)
Theorem heartbeat_payload_increases (h : Hal S C) :
  uptime_increasing ->
  ~ continuous_in (mPropStore h) VHAL_HEARTBEAT ->
  readValueOrNull (mPropStore h) canary <> None ->
  exists h1 h2 u1 t1 u2 t2,
    onContinuousPropertyTimer [VHAL_HEARTBEAT] h = Done (tt, h1)
    /\ onContinuousPropertyTimer [VHAL_HEARTBEAT] h1 = Done (tt, h2)
    /\ events_of (trace h2) =
         events_of (trace h) ++ [heartbeat u1 t1; heartbeat u2 t2]
    /\ u1 < u2.
Proof.
  intros Hup Hnc Hcan.
  destruct (readValueOrNull (mPropStore h) canary) as [stored |] eqn:Hread;
    [| contradiction].
  destruct (onTimerProperty_heartbeat_run h stored Hnc Hread)
    as (h1 & Hrun1 & Hev1 & Hck1 & Hs1).
  assert (Hnc1 : ~ continuous_in (mPropStore h1) VHAL_HEARTBEAT)
    by (rewrite Hs1; exact Hnc).
  assert (Hread1 : readValueOrNull (mPropStore h1) canary = Some stored)
    by (rewrite Hs1; exact Hread).
  destruct (onTimerProperty_heartbeat_run h1 stored Hnc1 Hread1)
    as (h2 & Hrun2 & Hev2 & _ & _).
  exists h1, h2. do 4 eexists.
  split; [exact Hrun1 |]. split; [exact Hrun2 |].
  split; [rewrite Hev2, Hev1, <- app_assoc; reflexivity |].
  apply Hup. rewrite Hck1. lia.
Qed.

(** X17: [onPropertyValue] emits an event exactly when [writeValue] reports
    a change, and the event is the pushed value as it came: its timestamp is
    not replaced and no clock is read. *)
Theorem onPropertyValue_event (v : VehiclePropValue) (updateStatus : bool) (h : Hal S C) :
  exists h',
    onPropertyValue v updateStatus h = Done (tt, h')
    /\ events_of (trace h') =
         events_of (trace h) ++
         (if (writeValue (mPropStore h) v updateStatus).2 then [v] else [])
    /\ clockReads h' = clockReads h
    /\ mVehicleClient h' = mVehicleClient h.
Proof.
  unfold onPropertyValue, obtain. run. cbn [deref].
  destruct (writeValue (mPropStore h) v updateStatus) as [s' changed].
  destruct changed; eexists; (split; [reflexivity |]);
    unfold record; cbn [trace clockReads mVehicleClient snd];
    (split; [| split; reflexivity]);
    rewrite !events_of_app; cbn; rewrite <- ?app_assoc, ?app_nil_r; reflexivity.
Qed.

End DispatchCoverage.

(* ===================================================================== *)
(** * Further properties: start-up *)
(* ===================================================================== *)

Section StartupCoverage.
Context {utils : VehicleUtils} {clock : SystemClock}.
Context {S C : Type} {store : VehiclePropertyStore S} {client : VehicleHalClient C}.

Lemma onCreate_areas_trace (cfg : VehiclePropConfig) (m k : nat) (h : Hal S C) :
  isGlobalProp (cfgProp cfg) = false ->
  (k + m = length (areaConfigs cfg))%nat ->
  exists h',
    for_each (seq k m) (onCreate_area cfg) h = Done (tt, h')
    /\ mVehicleClient h' = mVehicleClient h
    /\ clockReads h' = clockReads h
    /\ trace h' =
         trace h ++
         List.map (fun ac => StoreWriteValue (placeholder (cfgProp cfg) (cfgAreaId ac)) true)
                  (drop k (areaConfigs cfg)).
Proof.
  intros Hglobal. revert k h.
  induction m as [| m IH]; intros k h Hlen.
  - exists h. repeat (split; [reflexivity |]).
    rewrite drop_ge by lia. cbn. symmetry. apply app_nil_r.
  - cbn [seq for_each]. unfold bind at 1.
    assert (Hk : (k < length (areaConfigs cfg))%nat) by lia.
    destruct (lookup_lt_is_Some_2 _ _ Hk) as [ac Hac].
    rewrite (onCreate_area_run cfg k ac h Hglobal Hac).
    match goal with
    | |- context [ for_each _ _ ?h0 ] =>
        destruct (IH (Datatypes.S k) h0 ltac:(lia)) as (h' & Hrun & Hcl & Hck & Htr)
    end.
    exists h'. split; [exact Hrun |]. split; [exact Hcl |]. split; [exact Hck |].
    rewrite Htr. cbn [trace].
    rewrite (drop_S _ _ _ Hac). cbn. rewrite <- app_assoc. reflexivity.
Qed.

Lemma placeholder_calls_cons (cfg : VehiclePropConfig) (cfgs : list VehiclePropConfig) :
  placeholder_calls (cfg :: cfgs) =
    (if isGlobalProp (cfgProp cfg) then []
     else List.map (fun ac => StoreWriteValue (placeholder (cfgProp cfg) (cfgAreaId ac)) true)
                   (areaConfigs cfg))
    ++ placeholder_calls cfgs.
Proof.
  unfold placeholder_calls, written_placeholders. cbn [flat_map].
  rewrite List.map_app. f_equal.
  destruct (isGlobalProp (cfgProp cfg)); [reflexivity |].
  rewrite List.map_map. reflexivity.
Qed.

Lemma onCreate_configs_trace (cfgs : list VehiclePropConfig) (h : Hal S C) :
  Forall (fun cfg => size (areaConfigs cfg) < 2 ^ 31) cfgs ->
  exists h',
    for_each cfgs onCreate_config h = Done (tt, h')
    /\ mVehicleClient h' = mVehicleClient h
    /\ clockReads h' = clockReads h
    /\ trace h' = trace h ++ placeholder_calls cfgs.
Proof.
  intros Hsmall. revert h.
  induction Hsmall as [| cfg cfgs Hcfg _ IH]; intros h.
  - exists h. repeat (split; [reflexivity |]).
    cbn. symmetry. apply app_nil_r.
  - cbn [for_each]. unfold bind at 1. rewrite placeholder_calls_cons.
    destruct (isGlobalProp (cfgProp cfg)) eqn:Hglobal.
    + rewrite (onCreate_config_global cfg h Hglobal).
      destruct (IH h) as (h' & Hrun & Hcl & Hck & Htr).
      exists h'. split; [exact Hrun |]. split; [exact Hcl |]. split; [exact Hck |].
      exact Htr.
    + unfold onCreate_config at 1. rewrite Hglobal.
      rewrite to_int32_small by (pose proof (size_nonneg (areaConfigs cfg)); lia).
      unfold size. rewrite Nat2Z.id.
      destruct (onCreate_areas_trace cfg (length (areaConfigs cfg)) 0 h Hglobal eq_refl)
        as (h1 & Hrun1 & Hcl1 & Hck1 & Htr1).
      rewrite Hrun1.
      destruct (IH h1) as (h' & Hrun & Hcl & Hck & Htr).
      exists h'. split; [exact Hrun |].
      split; [congruence |]. split; [congruence |].
      rewrite Htr, Htr1. cbn [drop]. rewrite <- app_assoc. reflexivity.
Qed.

(** X18: the calls of [onCreate], in order: the discovery, then for every
    area-scoped schema one [writeValue] per declared area config, in
    declaration order, of an UNAVAILABLE placeholder with empty payload and
    [updateStatus = true] (none for a global schema), then
    [triggerSendAllValues], and last the registration of the heartbeat at an
    interval of three seconds.  Nothing is forwarded with [setProperty] and
    no clock is read. *)
Theorem onCreate_calls (h : Hal S C) :
  Forall (fun cfg => size (areaConfigs cfg) < 2 ^ 31)
         (getAllPropertyConfig (mVehicleClient h)) ->
  exists h',
    onCreate h = Done (tt, h')
    /\ calls_between h h'
         ([ClientGetAllPropertyConfig]
          ++ placeholder_calls (getAllPropertyConfig (mVehicleClient h))
          ++ [ClientTriggerSendAllValues;
              TimerRegisterRecurrentEvent 3000000000 VHAL_HEARTBEAT])
    /\ clockReads h' = clockReads h.
Proof.
  intros Hsmall. unfold onCreate, bind at 1, client_getAllPropertyConfig.
  unfold bind at 1.
  destruct (onCreate_configs_trace _ (record ClientGetAllPropertyConfig h) Hsmall)
    as (h1 & Hrun & Hcl & Hck & Htr).
  rewrite Hrun. unfold bind, client_triggerSendAllValues, registerHeartBeatEvent,
    timer_registerRecurrentEvent, record.
  eexists. split; [reflexivity |].
  unfold calls_between. cbn [trace clockReads]. rewrite Htr, Hck.
  unfold record. cbn [trace clockReads].
  split; [| reflexivity].
  rewrite <- !app_assoc. reflexivity.
Qed.

Lemma register_all (cfgs : list VehiclePropConfig) (h : Hal S C) :
  exists h',
    for_each cfgs store_registerProperty h = Done (tt, h')
    /\ mPropStore h' = fold_left registerProperty cfgs (mPropStore h)
    /\ mVehicleClient h' = mVehicleClient h
    /\ trace h' = trace h ++ List.map StoreRegisterProperty cfgs.
Proof.
  revert h. induction cfgs as [| cfg cfgs IH]; intros h.
  - exists h. repeat (split; [reflexivity |]). cbn. symmetry. apply app_nil_r.
  - cbn [for_each]. unfold bind at 1, store_registerProperty at 1.
    match goal with
    | |- context [ for_each _ _ ?h0 ] =>
        destruct (IH h0) as (h' & Hrun & Hst & Hcl & Htr)
    end.
    exists h'. split; [exact Hrun |].
    split; [rewrite Hst; reflexivity |]. split; [exact Hcl |].
    rewrite Htr. cbn [trace List.map]. rewrite <- app_assoc. reflexivity.
Qed.

(** X19: [initStaticConfig] registers every discovered schema with the
    store, once and in discovery order, and does nothing else: the store it
    leaves is the one obtained by the successive [registerProperty] calls,
    and no value is written. *)
Theorem initStaticConfig_registers (h : Hal S C) :
  exists h',
    initStaticConfig h = Done (tt, h')
    /\ mPropStore h' =
         fold_left registerProperty (getAllPropertyConfig (mVehicleClient h))
                   (mPropStore h)
    /\ calls_between h h'
         (ClientGetAllPropertyConfig
          :: List.map StoreRegisterProperty (getAllPropertyConfig (mVehicleClient h))).
Proof.
  unfold initStaticConfig, bind, client_getAllPropertyConfig.
  destruct (register_all (getAllPropertyConfig (mVehicleClient h))
              (record ClientGetAllPropertyConfig h))
    as (h' & Hrun & Hst & _ & Htr).
  exists h'. split; [exact Hrun |]. split; [exact Hst |].
  unfold calls_between. rewrite Htr. unfold record. cbn [trace].
  rewrite <- app_assoc. reflexivity.
Qed.

End StartupCoverage.

(* ===================================================================== *)
(** * The further properties on concrete inputs *)
(* ===================================================================== *)

(** The area-4 fan value is checked against the second area config. *)
Lemma fan_area4_checked_against :
  checked_against (Sample.fanValue 4 AVAILABLE 9) Sample.fanConfig
    (Sample.int32Bounds 4 1 7).
Proof.
  apply (against_matching _ _ _ [Sample.int32Bounds 1 1 7] []).
  - reflexivity.
  - reflexivity.
  - repeat constructor.
  - vm_compute. discriminate.
Defined.

Lemma speed_checked_against (v : VehiclePropValue) :
  prop v = 0x11600207 ->
  checked_against v Sample.speedBounded (Sample.floatBounds 0 Sample.f1 Sample.f10).
Proof.
  intros Hprop. apply (against_first _ _ _ []); [| reflexivity].
  cbn. rewrite Hprop. reflexivity.
Defined.

(** A fan value far above any sensible speed passes when the bounds are
    zero and zero. *)
Lemma checkValueRange_zero_bounds_witness :
  checked_against (Sample.fanValue 1 AVAILABLE 999) Sample.fanUnbounded
    (Sample.int32Bounds 1 0 0)
  /\ checkValueRange (Sample.fanValue 1 AVAILABLE 999) Sample.fanUnbounded = Done OK.
Proof.
  assert (R : checked_against (Sample.fanValue 1 AVAILABLE 999) Sample.fanUnbounded
                (Sample.int32Bounds 1 0 0)).
  { apply (against_matching _ _ _ [] []);
      [reflexivity | reflexivity | constructor | vm_compute; discriminate]. }
  split; [exact R |].
  exact (proj1 (checkValueRange_zero_bounds _ _ _ R) eq_refl eq_refl eq_refl).
Defined.

(** 9 is above the bounds 1..7 of area 4. *)
Lemma checkValueRange_int_bounds_witness :
  checked_against (Sample.fanValue 4 AVAILABLE 9) Sample.fanConfig
    (Sample.int32Bounds 4 1 7)
  /\ checkValueRange (Sample.fanValue 4 AVAILABLE 9) Sample.fanConfig
     = Done INVALID_ARG.
Proof.
  split; [exact fan_area4_checked_against |].
  assert (B : ~ (minInt32Value (Sample.int32Bounds 4 1 7) = 0
                 /\ maxInt32Value (Sample.int32Bounds 4 1 7) = 0))
    by (intros [Hmin _]; discriminate Hmin).
  rewrite (proj1 (checkValueRange_int_bounds _ _ _ 9 [] fan_area4_checked_against)
                 eq_refl eq_refl B).
  reflexivity.
Defined.

(** 5.0 lies within 1.0 and 10.0. *)
Lemma checkValueRange_float_bounds_witness :
  checked_against Sample.speedValue Sample.speedBounded
    (Sample.floatBounds 0 Sample.f1 Sample.f10)
  /\ checkValueRange Sample.speedValue Sample.speedBounded = Done OK.
Proof.
  split; [exact (speed_checked_against Sample.speedValue eq_refl) |].
  rewrite (checkValueRange_float_bounds _ _ _ Sample.f5 []
             (speed_checked_against Sample.speedValue eq_refl)
             eq_refl eq_refl eq_refl eq_refl eq_refl eq_refl).
  reflexivity.
Defined.

(** A NaN speed passes the bounds 1.0 and 10.0. *)
Lemma checkValueRange_nan_passes_witness :
  checked_against Sample.speedNaN Sample.speedBounded
    (Sample.floatBounds 0 Sample.f1 Sample.f10)
  /\ checkValueRange Sample.speedNaN Sample.speedBounded = Done OK.
Proof.
  split; [exact (speed_checked_against Sample.speedNaN eq_refl) |].
  exact (checkValueRange_nan_passes _ _ _ []
           (speed_checked_against Sample.speedNaN eq_refl) eq_refl eq_refl).
Defined.

(** An INT32 value without payload against the bounds 1..7. *)
Lemma checkValueRange_empty_payload_witness :
  checked_against (Sample.emptyValue Sample.HVAC_FAN_SPEED 1 AVAILABLE) Sample.fanConfig
    (Sample.int32Bounds 1 1 7)
  /\ checkValueRange (Sample.emptyValue Sample.HVAC_FAN_SPEED 1 AVAILABLE)
       Sample.fanConfig = Undefined AssertionFailure.
Proof.
  assert (R : checked_against (Sample.emptyValue Sample.HVAC_FAN_SPEED 1 AVAILABLE)
                Sample.fanConfig (Sample.int32Bounds 1 1 7)).
  { apply (against_matching _ _ _ [] [Sample.int32Bounds 4 1 7]);
      [reflexivity | reflexivity | constructor | vm_compute; discriminate]. }
  split; [exact R |].
  apply (proj1 (checkValueRange_empty_payload _ _ _ R)); [reflexivity | reflexivity |].
  intros [Hmin _]. discriminate Hmin.
Defined.

(** Dropping the area-1 config does not change the answer for area 4. *)
Lemma checkValueRange_first_match_witness :
  checked_against (Sample.fanValue 4 AVAILABLE 9) Sample.fanConfig
    (Sample.int32Bounds 4 1 7)
  /\ checkValueRange (Sample.fanValue 4 AVAILABLE 9) Sample.fanConfig
     = checkValueRange (Sample.fanValue 4 AVAILABLE 9)
         (with_areaConfigs [Sample.int32Bounds 4 1 7] Sample.fanConfig).
Proof.
  split; [exact fan_area4_checked_against |].
  exact (checkValueRange_first_match _ _ _ fan_area4_checked_against).
Defined.

(** The arity check of a fan value answers OK, one of the two codes. *)
Lemma validation_codes_witness :
  (checkPropValue (Sample.fanValue 1 AVAILABLE 3) Sample.fanConfig = Done OK
   \/ checkValueRange (Sample.fanValue 1 AVAILABLE 3) Sample.fanConfig = Done OK)
  /\ (OK = OK \/ OK = INVALID_ARG).
Proof.
  assert (E : checkPropValue (Sample.fanValue 1 AVAILABLE 3) Sample.fanConfig = Done OK
              \/ checkValueRange (Sample.fanValue 1 AVAILABLE 3) Sample.fanConfig
                 = Done OK) by (left; reflexivity).
  split; [exact E |].
  exact (validation_codes _ _ _ E).
Defined.

(** A vendor MIXED value is not range-checked. *)
Lemma checkValueRange_unchecked_witness :
  scalar_numeric (getPropType (prop (Sample.emptyValue Sample.VENDOR_MIXED 3 AVAILABLE)))
    = false
  /\ checkValueRange (Sample.emptyValue Sample.VENDOR_MIXED 3 AVAILABLE)
       Sample.intArrayLayout = Done OK.
Proof.
  split; [reflexivity |].
  exact (checkValueRange_unchecked
           (Sample.emptyValue Sample.VENDOR_MIXED 3 AVAILABLE)
           Sample.intArrayLayout eq_refl).
Defined.

(** A fan value of area 1 with one element: the range check answers. *)
Lemma checkValueRange_resolved_witness :
  checkPropValue (Sample.fanValue 1 AVAILABLE 3) Sample.fanConfig = Done OK
  /\ (isGlobalProp (prop (Sample.fanValue 1 AVAILABLE 3)) = true
      \/ findAreaConfig (Sample.fanValue 1 AVAILABLE 3) Sample.fanConfig <> None)
  /\ (checkValueRange (Sample.fanValue 1 AVAILABLE 3) Sample.fanConfig = Done OK
      \/ checkValueRange (Sample.fanValue 1 AVAILABLE 3) Sample.fanConfig
         = Done INVALID_ARG).
Proof.
  assert (R : isGlobalProp (prop (Sample.fanValue 1 AVAILABLE 3)) = true
              \/ findAreaConfig (Sample.fanValue 1 AVAILABLE 3) Sample.fanConfig <> None)
    by (right; vm_compute; discriminate).
  split; [reflexivity |]. split; [exact R |].
  exact (checkValueRange_resolved (Sample.fanValue 1 AVAILABLE 3) Sample.fanConfig
           eq_refl R).
Defined.

(** A fan value within bounds on an AVAILABLE property is forwarded. *)
Lemma set_forwards_witness :
  set_accepts Sample.fanReady (Sample.fanValue 1 AVAILABLE 3)
  /\ exists h',
       set (Sample.fanValue 1 AVAILABLE 3) Sample.fanReady
       = Done ((setProperty (mVehicleClient Sample.fanReady)
                  (Sample.fanValue 1 AVAILABLE 3) false).2, h')
       /\ calls_between Sample.fanReady h'
            [StoreGetConfigOrNull (prop (Sample.fanValue 1 AVAILABLE 3));
             StoreReadValueOrNull (Sample.fanValue 1 AVAILABLE 3);
             ClientSetProperty (Sample.fanValue 1 AVAILABLE 3) false]
       /\ mVehicleClient h'
          = (setProperty (mVehicleClient Sample.fanReady)
               (Sample.fanValue 1 AVAILABLE 3) false).1.
Proof.
  assert (A : set_accepts Sample.fanReady (Sample.fanValue 1 AVAILABLE 3)).
  { split; [reflexivity |]. split.
    - exists Sample.fanConfig. repeat split; vm_compute; reflexivity.
    - intros cur Hcur. vm_compute in Hcur. injection Hcur as <-. reflexivity. }
  split; [exact A |].
  exact (set_forwards Sample.fanReady (Sample.fanValue 1 AVAILABLE 3) A).
Defined.

(** The calls of a forwarded [set]. *)
Lemma set_calls_witness :
  exists h',
    set (Sample.fanValue 1 AVAILABLE 3) Sample.fanReady = Done (OK, h')
    /\ exists delta,
         calls_between Sample.fanReady h' delta
         /\ In delta (set_call_shapes (Sample.fanValue 1 AVAILABLE 3))
         /\ clockReads h' = clockReads Sample.fanReady.
Proof.
  eexists. split; [vm_compute; reflexivity |].
  apply (set_calls Sample.fanReady (Sample.fanValue 1 AVAILABLE 3) OK).
  vm_compute; reflexivity.
Defined.

(** 150 is above the bounds 1..7 of area 1. *)
Lemma set_out_of_range_witness :
  status (Sample.fanValue 1 AVAILABLE 150) = AVAILABLE
  /\ getConfigOrNull (mPropStore Sample.fanReady) (prop (Sample.fanValue 1 AVAILABLE 150))
     = Some Sample.fanConfig
  /\ checked_against (Sample.fanValue 1 AVAILABLE 150) Sample.fanConfig
       (Sample.int32Bounds 1 1 7)
  /\ set (Sample.fanValue 1 AVAILABLE 150) Sample.fanReady
     = Done (INVALID_ARG,
             record (StoreGetConfigOrNull (prop (Sample.fanValue 1 AVAILABLE 150)))
                    Sample.fanReady).
Proof.
  assert (G : getConfigOrNull (mPropStore Sample.fanReady)
                (prop (Sample.fanValue 1 AVAILABLE 150)) = Some Sample.fanConfig)
    by (vm_compute; reflexivity).
  assert (R : checked_against (Sample.fanValue 1 AVAILABLE 150) Sample.fanConfig
                (Sample.int32Bounds 1 1 7)).
  { apply (against_matching _ _ _ [] [Sample.int32Bounds 4 1 7]);
      [reflexivity | reflexivity | constructor | vm_compute; discriminate]. }
  split; [reflexivity |]. split; [exact G |]. split; [exact R |].
  apply (set_out_of_range Sample.fanReady (Sample.fanValue 1 AVAILABLE 150)
           Sample.fanConfig (Sample.int32Bounds 1 1 7) 150);
    [reflexivity | exact G | reflexivity | reflexivity | exact R | |].
  - intros [Hmin _]. discriminate Hmin.
  - right. vm_compute. reflexivity.
Defined.

Lemma speed_is_continuous : continuous_in (mPropStore Sample.speedReady) 0x11600207.
Proof. exists Sample.speedConfig. split; vm_compute; reflexivity. Defined.

Lemma heartbeat_not_continuous :
  ~ continuous_in (mPropStore Sample.speedReady) VHAL_HEARTBEAT.
Proof. intros (cfg & Hcfg & _). vm_compute in Hcfg. discriminate Hcfg. Defined.

(** Unsubscribing the continuous speed property. *)
Lemma unsubscribe_outcome_witness :
  continuous_in (mPropStore Sample.speedReady) 0x11600207
  /\ unsubscribe 0x11600207 Sample.speedReady
     = Done (OK, record (TimerUnregisterRecurrentEvent 0x11600207)
                   (record (StoreGetConfigOrNull 0x11600207) Sample.speedReady)).
Proof.
  split; [exact speed_is_continuous |].
  exact (proj2 (unsubscribe_outcome 0x11600207 Sample.speedReady) speed_is_continuous).
Defined.

(** Subscribing the speed property at 5.0 and unsubscribing it. *)
Lemma subscribe_then_unsubscribe_witness :
  exists h1,
    subscribe 0x11600207 Sample.f5 Sample.speedReady = Done (OK, h1)
    /\ exists h2,
         unsubscribe 0x11600207 h1 = Done (OK, h2)
         /\ calls_between h1 h2
              [StoreGetConfigOrNull 0x11600207;
               TimerUnregisterRecurrentEvent 0x11600207].
Proof.
  eexists. split; [vm_compute; reflexivity |].
  apply (subscribe_then_unsubscribe 0x11600207 Sample.f5 Sample.speedReady).
  vm_compute; reflexivity.
Defined.

Lemma speed_later_is_continuous :
  continuous_in (mPropStore Sample.speedLater) 0x11600207.
Proof. exists Sample.speedConfig. split; vm_compute; reflexivity. Defined.

(** A tick for the continuous speed property, stored with timestamp 5, when
    the clock reads 3000000: the event carries 3000000. *)
Lemma onTimer_continuous_witness :
  continuous_in (mPropStore Sample.speedLater) 0x11600207
  /\ readValueOrNullByProp (mPropStore Sample.speedLater) 0x11600207
     = Some Sample.speedValue
  /\ exists h' v,
       onContinuousPropertyTimer [0x11600207] Sample.speedLater = Done (tt, h')
       /\ calls_between Sample.speedLater h'
            [StoreGetConfigOrNull 0x11600207; StoreReadValueOrNullByProp 0x11600207;
             HalEvent v]
       /\ restamped 3000000 Sample.speedValue v.
Proof.
  assert (R : readValueOrNullByProp (mPropStore Sample.speedLater) 0x11600207
              = Some Sample.speedValue) by (vm_compute; reflexivity).
  split; [exact speed_later_is_continuous |]. split; [exact R |].
  destruct (onTimer_continuous 0x11600207 Sample.speedLater speed_later_is_continuous)
    as (h' & Hrun & _ & Hsome).
  destruct (Hsome Sample.speedValue R) as (v & Hcalls & Hstamp).
  exists h', v. split; [exact Hrun |]. split; [exact Hcalls | exact Hstamp].
Defined.

(** A tick for the fan property, which is ON_CHANGE, is skipped. *)
Lemma onTimer_unexpected_witness :
  ~ continuous_in (mPropStore Sample.fanReady) Sample.HVAC_FAN_SPEED
  /\ Sample.HVAC_FAN_SPEED <> VHAL_HEARTBEAT
  /\ onContinuousPropertyTimer [Sample.HVAC_FAN_SPEED] Sample.fanReady
     = onContinuousPropertyTimer []
         (record (StoreGetConfigOrNull Sample.HVAC_FAN_SPEED) Sample.fanReady).
Proof.
  assert (N : ~ continuous_in (mPropStore Sample.fanReady) Sample.HVAC_FAN_SPEED).
  { intros (cfg & Hcfg & Hmode). vm_compute in Hcfg.
    injection Hcfg as <-. discriminate Hmode. }
  assert (D : Sample.HVAC_FAN_SPEED <> VHAL_HEARTBEAT)
    by (vm_compute; discriminate).
  split; [exact N |]. split; [exact D |].
  exact (onTimer_unexpected Sample.HVAC_FAN_SPEED [] Sample.fanReady N D).
Defined.

(** Two heartbeat ticks with the sample clock, which counts its readings. *)
Lemma heartbeat_payload_increases_witness :
  uptime_increasing
  /\ ~ continuous_in (mPropStore Sample.speedReady) VHAL_HEARTBEAT
  /\ readValueOrNull (mPropStore Sample.speedReady) canary <> None
  /\ exists h1 h2 u1 t1 u2 t2,
       onContinuousPropertyTimer [VHAL_HEARTBEAT] Sample.speedReady = Done (tt, h1)
       /\ onContinuousPropertyTimer [VHAL_HEARTBEAT] h1 = Done (tt, h2)
       /\ events_of (trace h2) =
            events_of (trace Sample.speedReady) ++ [heartbeat u1 t1; heartbeat u2 t2]
       /\ u1 < u2.
Proof.
  assert (U : uptime_increasing (clock := Sample.clock))
    by (intros m n Hmn; cbn; lia).
  assert (R : readValueOrNull (mPropStore Sample.speedReady) canary <> None)
    by (vm_compute; discriminate).
  split; [exact U |]. split; [exact heartbeat_not_continuous |]. split; [exact R |].
  exact (heartbeat_payload_increases Sample.speedReady U heartbeat_not_continuous R).
Defined.

(** Start-up with the night-mode and fan schemas. *)
Lemma onCreate_calls_witness :
  Forall (fun cfg => size (areaConfigs cfg) < 2 ^ 31)
    (getAllPropertyConfig
       (mVehicleClient (Sample.hal [Sample.nightModeConfig; Sample.fanConfig] [])))
  /\ exists h',
       onCreate (Sample.hal [Sample.nightModeConfig; Sample.fanConfig] []) = Done (tt, h')
       /\ calls_between (Sample.hal [Sample.nightModeConfig; Sample.fanConfig] []) h'
            ([ClientGetAllPropertyConfig]
             ++ placeholder_calls
                  (getAllPropertyConfig
                     (mVehicleClient
                        (Sample.hal [Sample.nightModeConfig; Sample.fanConfig] [])))
             ++ [ClientTriggerSendAllValues;
                 TimerRegisterRecurrentEvent 3000000000 VHAL_HEARTBEAT])
       /\ clockReads h'
          = clockReads (Sample.hal [Sample.nightModeConfig; Sample.fanConfig] []).
Proof.
  assert (F : Forall (fun cfg => size (areaConfigs cfg) < 2 ^ 31)
                (getAllPropertyConfig
                   (mVehicleClient
                      (Sample.hal [Sample.nightModeConfig; Sample.fanConfig] []))))
    by (repeat constructor).
  split; [exact F |].
  exact (onCreate_calls (Sample.hal [Sample.nightModeConfig; Sample.fanConfig] []) F).
Defined.
